(** * The Yahoo Finance HTTP gateway (yahoo-finance/src/server_http.py)

    A shallow embedding of the FastAPI application defined in
    [server_http.py]: its five endpoint functions, the route table built by
    the constructor [FastAPI(...)] and the [@app.get] decorators, the way
    FastAPI turns a request into a call of an endpoint function (path and
    query parameters, defaults, request validation) and an endpoint's
    result into a response (rendering included), and the [__main__] block
    that starts the listener.

    The helper package [yahoo_finance_server.helper], the standard
    library's [json.loads] and pydantic's validation of an [int] query
    parameter are not part of the file: they are the variables of section
    [Gateway], so every theorem holds whatever they do. *)

From Stdlib Require Import ZArith List String Ascii Bool Lia.
From Stdlib Require Import DecimalString.
Import ListNotations.

Set Warnings "-register-all".

Local Open Scope string_scope.
Local Open Scope Z_scope.

(** ** Python values *)

(** JSON values: what the body of a JSON response carries, and what the
    helper package returns for news, search results and price history.  A
    float is kept as the decimal number [mantissa * 10 ^ exponent] its
    literal denotes. *)
Inductive pyval : Type :=
| PyNone
| PyBool (b : bool)
| PyInt (n : Z)
| PyFloat (mantissa exponent : Z)
| PyStr (s : string)
| PyList (items : list pyval)
| PyDict (entries : list (string * pyval)).

(** A Python float: a number, an infinity, or not a number. *)
Inductive pyfloat : Type :=
| Finite (mantissa exponent : Z)
| Infinity (negative : bool)
| NaN.

(** A Python [str] is a sequence of code points.  It is kept as the bytes
    of the UTF-8 encoding of its characters; a lone surrogate, which a
    [\u] escape of JSON can write and which has no UTF-8 encoding, is kept
    as its code. *)
Inductive pychar : Type :=
| Char (a : ascii)
| Surrogate (code : Z).

Definition pystr : Type := list pychar.

(** The [str] of a text. *)
Fixpoint text (s : string) : pystr :=
  match s with
  | EmptyString => []
  | String a s' => Char a :: text s'
  end.

(** [s.encode("utf-8")], which raises a [UnicodeEncodeError] on a lone
    surrogate. *)
Fixpoint encode_utf8 (s : pystr) : option string :=
  match s with
  | [] => Some EmptyString
  | Char a :: s' => option_map (String a) (encode_utf8 s')
  | Surrogate _ :: _ => None
  end.

Definition pychar_eqb (a b : pychar) : bool :=
  match a, b with
  | Char x, Char y => Ascii.eqb x y
  | Surrogate x, Surrogate y => x =? y
  | _, _ => false
  end.

Fixpoint pystr_eqb (s t : pystr) : bool :=
  match s, t with
  | [], [] => true
  | a :: s', b :: t' => pychar_eqb a b && pystr_eqb s' t'
  | _, _ => false
  end.

(** The objects an endpoint function returns: the values above, and those
    that hold a float that is no number, which [json.loads] gives for the
    texts NaN, Infinity and -Infinity and for a number out of the range of
    a float, or a [str] with a lone surrogate. *)
Inductive pyobject : Type :=
| ObjNone
| ObjBool (b : bool)
| ObjInt (n : Z)
| ObjFloat (x : pyfloat)
| ObjStr (s : pystr)
| ObjList (items : list pyobject)
| ObjDict (entries : list (pystr * pyobject)).

(** A JSON value, as the object it is. *)
Fixpoint of_json (v : pyval) : pyobject :=
  match v with
  | PyNone => ObjNone
  | PyBool b => ObjBool b
  | PyInt n => ObjInt n
  | PyFloat m e => ObjFloat (Finite m e)
  | PyStr s => ObjStr (text s)
  | PyList items => ObjList (map of_json items)
  | PyDict entries =>
      ObjDict (map (fun kv => (text (fst kv), of_json (snd kv))) entries)
  end.

(** What [JSONResponse] renders an object to: it calls [json.dumps] with
    [allow_nan=False], which raises a [ValueError] on a float that is no
    number, wherever it is in the object, and encodes the text as UTF-8,
    which raises a [UnicodeEncodeError] on a lone surrogate, in a string
    or in a key. *)
Fixpoint render (o : pyobject) : option pyval :=
  match o with
  | ObjNone => Some PyNone
  | ObjBool b => Some (PyBool b)
  | ObjInt n => Some (PyInt n)
  | ObjFloat (Finite m e) => Some (PyFloat m e)
  | ObjFloat (Infinity _) => None
  | ObjFloat NaN => None
  | ObjStr s => option_map PyStr (encode_utf8 s)
  | ObjList items =>
      option_map PyList
        ((fix render_items (l : list pyobject) : option (list pyval) :=
            match l with
            | [] => Some []
            | x :: l' =>
                match render x, render_items l' with
                | Some v, Some vs => Some (v :: vs)
                | _, _ => None
                end
            end) items)
  | ObjDict entries =>
      option_map PyDict
        ((fix render_entries (l : list (pystr * pyobject))
            : option (list (string * pyval)) :=
            match l with
            | [] => Some []
            | (k, x) :: l' =>
                match encode_utf8 k, render x, render_entries l' with
                | Some key, Some v, Some vs => Some ((key, v) :: vs)
                | _, _, _ => None
                end
            end) entries)
  end.

(** Instances of [Exception].  [Exc cls msg] is an exception of class [cls]
    whose [str()] is [msg]; [HTTPException] is the class the endpoints raise.
    What is not an [Exception] (cancellation, interpreter exit) is outside
    the model. *)
Inductive exn : Type :=
| Exc (cls : string) (msg : string)
| HTTPException (status_code : Z) (detail : string).

Definition string_of_Z (n : Z) : string := NilZero.string_of_int (Z.to_int n).

(** [str(e)]; Starlette prints an [HTTPException] as "<status>: <detail>". *)
Definition str (e : exn) : string :=
  match e with
  | Exc _ msg => msg
  | HTTPException code detail => string_of_Z code ++ ": " ++ detail
  end.

(** ** What a request does to the outside *)

(** The calls of the helper package.  [get_top_entities] is imported by
    [server_http.py] next to the four others. *)
Inductive call : Type :=
| Call_get_ticker_info (symbol : string)
| Call_get_ticker_news (symbol : string) (count : Z)
| Call_search_yahoo_finance (query : string) (count : Z)
| Call_get_price_history (symbol period interval : string)
| Call_get_top_entities (args : list pyval).

(** What a request leaves behind: the helper calls it awaited, each with
    the exception it raised if it raised one, and the records it logged at
    level ERROR. *)
Inductive event : Type :=
| Awaited (c : call) (raised : option exn)
| LoggerError (msg : string).

Definition is_get_top_entities (c : call) : bool :=
  match c with Call_get_top_entities _ => true | _ => false end.

(** The helper calls among the events, in order. *)
Fixpoint calls_of (evs : list event) : list call :=
  match evs with
  | [] => []
  | Awaited c _ :: evs' => c :: calls_of evs'
  | LoggerError _ :: evs' => calls_of evs'
  end.


(** ** Requests and responses *)

Record request : Type := mkRequest {
  method : string;
  path : string;
  query_params : list (string * string)
}.

(** Where a request parameter failed validation, as in the [loc] of a
    FastAPI validation error: [["query"; "q"]]. *)
Definition loc : Type := list string.

(** The pages FastAPI serves on the routes it registers itself: the OpenAPI
    schema of the application, the Swagger UI page, the page the Swagger UI
    comes back to after OAuth2, and the ReDoc page.  Their text is the
    framework's. *)
Inductive framework_page : Type :=
| OpenAPISchema
| SwaggerUI
| SwaggerUIRedirect
| ReDoc.

Inductive response : Type :=
| JSONResponse (status_code : Z) (content : pyval)
| PlainTextResponse (status_code : Z) (body : string)
| RequestValidationError (errors : list loc)
| FrameworkResponse (status_code : Z) (page : framework_page)
| Unrouted.

Definition HTTP_422_UNPROCESSABLE_ENTITY : Z := 422.

(** The status line of a response.  A [RequestValidationError] is answered
    by FastAPI's [request_validation_exception_handler], which the
    application does not replace.  [Unrouted] stands for what the framework
    answers on its own when no route takes the request (not found, method
    not allowed, a redirect to the path with or without its final slash):
    no endpoint is run. *)
Definition http_status (r : response) : option Z :=
  match r with
  | JSONResponse code _ => Some code
  | PlainTextResponse code _ => Some code
  | RequestValidationError _ => Some HTTP_422_UNPROCESSABLE_ENTITY
  | FrameworkResponse code _ => Some code
  | Unrouted => None
  end.

Definition detail_body (detail : string) : pyval :=
  PyDict [("detail", PyStr detail)].

(** ** Strings of the routing layer *)

Definition newline : string := String (ascii_of_nat 10) "".

Fixpoint strip_prefix (p s : string) : option string :=
  match p with
  | EmptyString => Some s
  | String a p' =>
      match s with
      | EmptyString => None
      | String b s' => if Ascii.eqb a b then strip_prefix p' s' else None
      end
  end.

Fixpoint no_slash (s : string) : bool :=
  match s with
  | EmptyString => true
  | String a s' => negb (Ascii.eqb a "/"%char) && no_slash s'
  end.

(** What the convertor [[^/]+] of a path parameter accepts. *)
Definition is_segment (s : string) : bool :=
  negb (String.eqb s "") && no_slash s.

(** A route path as the application writes them: a fixed path, or a fixed
    prefix followed by one [{name}] parameter. *)
Inductive path_template : Type :=
| Static (p : string)
| Param (prefix name : string).

(** Starlette compiles a template to a regular expression closed by [$] and
    matches the request path with [re.match]: [$] also matches just before
    a newline that ends the path. *)
Definition match_path (t : path_template) (p : string)
  : option (list (string * string)) :=
  match t with
  | Static s =>
      if String.eqb p s || String.eqb p (s ++ newline) then Some [] else None
  | Param prefix name =>
      match strip_prefix prefix p with
      | Some v => if is_segment v then Some [(name, v)] else None
      | None => None
      end
  end.

(** The value of a key in a multi-dict: the last one given. *)
Fixpoint multidict_get (key : string) (items : list (string * string))
  : option string :=
  match items with
  | [] => None
  | (k, v) :: rest =>
      match multidict_get key rest with
      | Some v' => Some v'
      | None => if String.eqb k key then Some v else None
      end
  end.

(** ** Parameters of an endpoint *)

(** The outcome of solving the parameters of an endpoint function: the
    value, or the places that failed. *)
Inductive solved (A : Type) : Type :=
| Valid (a : A)
| Errors (locs : list loc).
Arguments Valid {A} a.
Arguments Errors {A} locs.

Definition solved_ap {A B} (f : solved (A -> B)) (x : solved A) : solved B :=
  match f, x with
  | Valid g, Valid a => Valid (g a)
  | Valid _, Errors l => Errors l
  | Errors l, Valid _ => Errors l
  | Errors l1, Errors l2 => Errors (l1 ++ l2)
  end.

Notation "f <*> x" := (solved_ap f x) (at level 52, left associativity).

Definition path_str (name : string) (pp : list (string * string))
  : solved string :=
  match multidict_get name pp with
  | Some v => Valid v
  | None => Errors [["path"; name]]
  end.

(** [name: str] *)
Definition query_str_required (name : string) (qp : list (string * string))
  : solved string :=
  match multidict_get name qp with
  | Some v => Valid v
  | None => Errors [["query"; name]]
  end.

(** [name: str = default] *)
Definition query_str (name default : string) (qp : list (string * string))
  : solved string :=
  match multidict_get name qp with
  | Some v => Valid v
  | None => Valid default
  end.

(** ** The module *)

Module server_http.

Section Gateway.

(** The state of what the helper package talks to. *)
Variable World : Type.

(** [yahoo_finance_server.helper]: each coroutine, awaited in a world,
    returns or raises, and leaves a world. *)
Record helper_package : Type := mkHelper {
  helper_get_ticker_info : string -> World -> (exn + string) * World;
  helper_get_ticker_news : string -> Z -> World -> (exn + pyval) * World;
  helper_search_yahoo_finance :
    string -> Z -> World -> (exn + pyval) * World;
  helper_get_price_history :
    string -> string -> string -> World -> (exn + pyval) * World
}.

Variable helper : helper_package.

(** [json.loads] *)
Variable json_loads : string -> exn + pyobject.

(** pydantic's validation of the text of a query parameter against
    [int]. *)
Variable int_validate : string -> option Z.

(** Code that may raise, await the helper and log: run in a world, it
    returns or raises, leaves a world, and leaves its events. *)
Definition M (A : Type) : Type := World -> (exn + A) * World * list event.

Definition ret {A} (a : A) : M A := fun w => (inr a, w, []).

Definition raise {A} (e : exn) : M A := fun w => (inl e, w, []).

Definition bind {A B} (m : M A) (k : A -> M B) : M B :=
  fun w =>
    match m w with
    | (inl e, w1, evs) => (inl e, w1, evs)
    | (inr a, w1, evs) =>
        let '(r, w2, evs') := k a w1 in (r, w2, (evs ++ evs')%list)
    end.

(** [try: body / except Exception as e: handler e] *)
Definition try_except {A} (body : M A) (handler : exn -> M A) : M A :=
  fun w =>
    match body w with
    | (inl e, w1, evs) =>
        let '(r, w2, evs') := handler e w1 in (r, w2, (evs ++ evs')%list)
    | (inr a, w1, evs) => (inr a, w1, evs)
    end.

Definition raised_by {A} (r : exn + A) : option exn :=
  match r with inl e => Some e | inr _ => None end.

(** [await f(...)] *)
Definition await {A} (c : call) (f : World -> (exn + A) * World) : M A :=
  fun w => let (r, w1) := f w in (r, w1, [Awaited c (raised_by r)]).

Definition logger_error (msg : string) : M unit :=
  fun w => (inr tt, w, [LoggerError msg]).

Definition lift {A} (r : exn + A) : M A := fun w => (r, w, []).

Notation "x <- m ;; k" := (bind m (fun x => k))
  (at level 61, m at next level, right associativity).
Notation "m ;;; k" := (bind m (fun _ => k))
  (at level 61, right associativity).

(** *** The helper's coroutines, as the module imports them *)

Definition get_ticker_info (symbol : string) : M string :=
  await (Call_get_ticker_info symbol) (helper_get_ticker_info helper symbol).

(** The helper returns JSON values; the endpoint functions hold them as
    the objects they are. *)
Definition as_object (f : World -> (exn + pyval) * World)
  : World -> (exn + pyobject) * World :=
  fun w =>
    let (r, w1) := f w in
    (match r with inl e => inl e | inr v => inr (of_json v) end, w1).

Definition get_ticker_news (symbol : string) (count : Z) : M pyobject :=
  await (Call_get_ticker_news symbol count)
        (as_object (helper_get_ticker_news helper symbol count)).

Definition search_yahoo_finance (q : string) (count : Z) : M pyobject :=
  await (Call_search_yahoo_finance q count)
        (as_object (helper_search_yahoo_finance helper q count)).

Definition get_price_history (symbol period interval : string)
  : M pyobject :=
  await (Call_get_price_history symbol period interval)
        (as_object (helper_get_price_history helper symbol period interval)).

(** *** The endpoint functions *)

Definition health_check : M pyobject :=
  ret (ObjDict [(text "status", ObjStr (text "ok"))]).

Definition get_info (symbol : string) : M pyobject :=
  try_except
    (info_json <- get_ticker_info symbol ;;
     lift (json_loads info_json))
    (fun e =>
       logger_error ("Error fetching info for " ++ symbol ++ ": " ++ str e) ;;;
       raise (HTTPException 500 (str e))).

Definition get_news (symbol : string) (count : Z) : M pyobject :=
  try_except
    (news <- get_ticker_news symbol count ;;
     ret news)
    (fun e =>
       logger_error ("Error fetching news for " ++ symbol ++ ": " ++ str e) ;;;
       raise (HTTPException 500 (str e))).

Definition search (q : string) (count : Z) : M pyobject :=
  try_except
    (results <- search_yahoo_finance q count ;;
     ret results)
    (fun e =>
       logger_error ("Error searching for " ++ q ++ ": " ++ str e) ;;;
       raise (HTTPException 500 (str e))).

Definition price_history (symbol period interval : string) : M pyobject :=
  try_except
    (history <- get_price_history symbol period interval ;;
     ret history)
    (fun e =>
       logger_error
         ("Error fetching price history for " ++ symbol ++ ": " ++ str e) ;;;
       raise (HTTPException 500 (str e))).

(** *** The route table *)

(** [name: int = default] *)
Definition query_int (name : string) (default : Z)
    (qp : list (string * string)) : solved Z :=
  match multidict_get name qp with
  | None => Valid default
  | Some txt =>
      match int_validate txt with
      | Some n => Valid n
      | None => Errors [["query"; name]]
      end
  end.

(** A route: the methods and the path it takes, and what answers.  An
    [APIRoute] is what [@app.get] registers: an endpoint function behind
    the parameters FastAPI reads off its signature.  A [Route] is what the
    constructor [FastAPI(...)] registers for a page of its own; Starlette
    lets it take HEAD with GET. *)
Inductive route : Type :=
| APIRoute (methods : list string) (template : path_template)
    (endpoint :
       list (string * string) -> list (string * string)
       -> solved (M pyobject))
| Route (methods : list string) (template : path_template)
    (page : framework_page).

Definition route_methods (r : route) : list string :=
  match r with
  | APIRoute methods _ _ => methods
  | Route methods _ _ => methods
  end.

Definition route_path (r : route) : path_template :=
  match r with
  | APIRoute _ template _ => template
  | Route _ template _ => template
  end.

(** The routes of [app], in the order they are registered.
    [app = FastAPI(title=..., lifespan=lifespan)] leaves [openapi_url],
    [docs_url], [swagger_ui_oauth2_redirect_url] and [redoc_url] at their
    defaults, so the constructor registers the four routes of the
    framework's pages; the five decorators follow. *)
Definition app : list route :=
  [ Route ["GET"; "HEAD"] (Static "/openapi.json") OpenAPISchema;
    Route ["GET"; "HEAD"] (Static "/docs") SwaggerUI;
    Route ["GET"; "HEAD"] (Static "/docs/oauth2-redirect") SwaggerUIRedirect;
    Route ["GET"; "HEAD"] (Static "/redoc") ReDoc;
    APIRoute ["GET"] (Static "/health")
      (fun _ _ => Valid health_check);
    APIRoute ["GET"] (Param "/api/ticker/" "symbol")
      (fun pp _ => Valid get_info <*> path_str "symbol" pp);
    APIRoute ["GET"] (Param "/api/news/" "symbol")
      (fun pp qp =>
         Valid get_news <*> path_str "symbol" pp <*> query_int "count" 10 qp);
    APIRoute ["GET"] (Static "/api/search")
      (fun _ qp =>
         Valid search <*> query_str_required "q" qp
                      <*> query_int "count" 10 qp);
    APIRoute ["GET"] (Param "/api/price-history/" "symbol")
      (fun pp qp =>
         Valid price_history <*> path_str "symbol" pp
                             <*> query_str "period" "1y" qp
                             <*> query_str "interval" "1d" qp) ].

(** *** From a request to a response *)

(** The first route whose path matches and which takes the method. *)
Fixpoint find_route (routes : list route) (req : request)
  : option (route * list (string * string)) :=
  match routes with
  | [] => None
  | r :: rest =>
      match match_path (route_path r) (path req) with
      | Some pp =>
          if existsb (String.eqb (method req)) (route_methods r)
          then Some (r, pp)
          else find_route rest req
      | None => find_route rest req
      end
  end.

(** What the framework makes of the run of an endpoint function.  The
    object returned is rendered into the body of a 200 response; the
    rendering comes after the function has returned, so that what it
    raises is answered, as any exception that is no [HTTPException], by
    the server-error middleware.  An [HTTPException] is answered with its
    status and its detail. *)
Definition respond (m : M pyobject) (w : World)
  : response * World * list event :=
  match m w with
  | (inr o, w1, evs) =>
      match render o with
      | Some v => (JSONResponse 200 v, w1, evs)
      | None => (PlainTextResponse 500 "Internal Server Error", w1, evs)
      end
  | (inl (HTTPException code detail), w1, evs) =>
      (JSONResponse code (detail_body detail), w1, evs)
  | (inl (Exc _ _), w1, evs) =>
      (PlainTextResponse 500 "Internal Server Error", w1, evs)
  end.

Definition serve (req : request) (w : World)
  : response * World * list event :=
  match find_route app req with
  | None => (Unrouted, w, [])
  | Some (APIRoute _ _ endpoint, pp) =>
      match endpoint pp (query_params req) with
      | Errors locs => (RequestValidationError locs, w, [])
      | Valid m => respond m w
      end
  | Some (Route _ _ page, _) => (FrameworkResponse 200 page, w, [])
  end.

End Gateway.

(** ** The [__main__] block *)

(** What [uvicorn.run] is given. *)
Record listener : Type := mkListener {
  listen_host : string;
  listen_port : Z
}.

(** [uvicorn.run(app, host="0.0.0.0", port=8000)]: the block reads neither
    the environment nor the command line of the process. *)
Definition main (environ : list (string * string)) (argv : list string)
  : listener :=
  mkListener "0.0.0.0" 8000.

End server_http.

Import server_http.

(** ** A decoder for JSON texts

    [json.loads] is a variable of section [Gateway].  To run the gateway on
    concrete texts, [JsonDecoder.loads] follows the decoder of the standard
    library (json/decoder.py, json/scanner.py and their C counterparts) on
    the grammar of JSON and on the three texts NaN, Infinity and -Infinity
    it takes beside, with the position and the wording of its errors.  A
    text is a string of bytes: a character outside ASCII is its UTF-8
    bytes, and the positions count bytes.  A float is kept as the decimal
    number of its literal when a float can hold it, and is an infinity
    when the literal is out of the range of a float; the rounding of a
    literal to the nearest float is left out, so that two literals of the
    same float are kept apart. *)
Module JsonDecoder.

Inductive scanned (A : Type) : Type :=
| Scanned (a : A) (rest : string) (pos : nat)
| Failed (msg : string) (pos : nat).
Arguments Scanned {A} a rest pos.
Arguments Failed {A} msg pos.

Definition quote : ascii := ascii_of_nat 34.
Definition backslash : ascii := ascii_of_nat 92.

(** WHITESPACE: space, tab, line feed, carriage return. *)
Definition is_ws (a : ascii) : bool :=
  let n := nat_of_ascii a in
  (Nat.eqb n 32 || Nat.eqb n 9 || Nat.eqb n 10 || Nat.eqb n 13)%bool.

Fixpoint skip_ws (s : string) (pos : nat) : string * nat :=
  match s with
  | String a s' => if is_ws a then skip_ws s' (S pos) else (s, pos)
  | EmptyString => (s, pos)
  end.

Definition digit (a : ascii) : option Z :=
  let n := nat_of_ascii a in
  if (Nat.leb 48 n && Nat.leb n 57)%bool then Some (Z.of_nat (n - 48))
  else None.

(** The longest run of digits at the head of [s]: its value after [acc],
    how many there are, and what follows. *)
Fixpoint digits (s : string) (acc : Z) (n : nat) : Z * nat * string :=
  match s with
  | String a s' =>
      match digit a with
      | Some d => digits s' (10 * acc + d) (S n)
      | None => (acc, n, s)
      end
  | EmptyString => (acc, n, s)
  end.

(** The integer part of NUMBER_RE: an optional minus sign, then a single
    zero or a digit from 1 to 9 followed by any digits. *)
Definition integer_part (s : string) : option (bool * Z * nat * string) :=
  let '(neg, s1, n0) :=
    match s with
    | String "-" s' => (true, s', 1%nat)
    | _ => (false, s, 0%nat)
    end in
  match s1 with
  | String "0" s2 => Some (neg, 0, S n0, s2)
  | String a _ =>
      match digit a with
      | Some _ => let '(v, n, rest) := digits s1 0 n0 in Some (neg, v, n, rest)
      | None => None
      end
  | EmptyString => None
  end.

(** The fraction, a dot and at least one digit: the digits, read after
    those of [acc]. *)
Definition fraction_part (s : string) (acc : Z)
  : option (Z * nat * string) :=
  match s with
  | String "." s' =>
      let '(v, n, rest) := digits s' acc 0 in
      if Nat.eqb n 0 then None else Some (v, n, rest)
  | _ => None
  end.

(** The exponent, e or E, an optional sign and at least one digit: its
    value and its length. *)
Definition exponent_part (s : string) : option (Z * nat * string) :=
  match s with
  | String c s' =>
      if (Ascii.eqb c "e" || Ascii.eqb c "E")%bool then
        let '(neg, s1, n0) :=
          match s' with
          | String "-" s2 => (true, s2, 2%nat)
          | String "+" s2 => (false, s2, 2%nat)
          | _ => (false, s', 1%nat)
          end in
        let '(v, n, rest) := digits s1 0 0 in
        if Nat.eqb n 0 then None
        else Some (if neg then - v else v, (n0 + n)%nat, rest)
      else None
  | EmptyString => None
  end.

Definition signed (neg : bool) (v : Z) : Z := if neg then - v else v.

(** Half way between the largest float and the power of two after it:
    from there on, a number is rounded to an infinity. *)
Definition float_overflow : Z := 2 ^ 1024 - 2 ^ 970.

(** Whether [m * 10 ^ e], for [m] not negative, is rounded to an
    infinity.  The first tests keep the powers of ten small. *)
Definition overflows (m e : Z) : bool :=
  if m =? 0 then false
  else if 400 <? e then true
  else if 0 <=? e then float_overflow <=? m * 10 ^ e
  else if Z.log2 m + 1 <? 3 * - e then false
  else float_overflow * 10 ^ (- e) <=? m.

(** [float(literal)] for the literal of sign [neg] and of absolute value
    [m * 10 ^ e]. *)
Definition float_of_decimal (neg : bool) (m e : Z) : pyfloat :=
  if overflows m e then Infinity neg else Finite (signed neg m) e.

(** [match_number]: an integer literal is an [int], one with a fraction
    or an exponent a [float]. *)
Definition match_number (s : string) (pos : nat)
  : option (scanned pyobject) :=
  match integer_part s with
  | None => None
  | Some (neg, i, n, rest) =>
      match fraction_part rest i, exponent_part rest with
      | None, None => Some (Scanned (ObjInt (signed neg i)) rest (pos + n))
      | None, Some (e, ne, rest') =>
          Some (Scanned (ObjFloat (float_of_decimal neg i e)) rest'
                        (pos + n + ne))
      | Some (m, nf, rest'), _ =>
          match exponent_part rest' with
          | None =>
              Some (Scanned
                      (ObjFloat (float_of_decimal neg m (- Z.of_nat nf)))
                      rest' (pos + n + 1 + nf))
          | Some (e, ne, rest'') =>
              Some (Scanned
                      (ObjFloat (float_of_decimal neg m (e - Z.of_nat nf)))
                      rest'' (pos + n + 1 + nf + ne))
          end
      end
  end.

(** BACKSLASH: what follows a backslash, and what it stands for. *)
Definition unescape (a : ascii) : option ascii :=
  if Ascii.eqb a quote then Some quote
  else if Ascii.eqb a backslash then Some backslash
  else if Ascii.eqb a "/" then Some "/"%char
  else if Ascii.eqb a "b" then Some (ascii_of_nat 8)
  else if Ascii.eqb a "f" then Some (ascii_of_nat 12)
  else if Ascii.eqb a "n" then Some (ascii_of_nat 10)
  else if Ascii.eqb a "r" then Some (ascii_of_nat 13)
  else if Ascii.eqb a "t" then Some (ascii_of_nat 9)
  else None.

Definition hex_digit (a : ascii) : option Z :=
  let n := Z.of_nat (nat_of_ascii a) in
  if (48 <=? n) && (n <=? 57) then Some (n - 48)
  else if (65 <=? n) && (n <=? 70) then Some (n - 55)
  else if (97 <=? n) && (n <=? 102) then Some (n - 87)
  else None.

(** The four hexadecimal digits of a [\u] escape, when something follows
    them: the code they write, and what follows. *)
Definition hex4 (s : string) : option (Z * string) :=
  match s with
  | String a (String b (String c (String d (String x rest)))) =>
      match hex_digit a, hex_digit b, hex_digit c, hex_digit d with
      | Some h1, Some h2, Some h3, Some h4 =>
          Some (((h1 * 16 + h2) * 16 + h3) * 16 + h4, String x rest)
      | _, _, _, _ => None
      end
  | _ => None
  end.

Definition is_high_surrogate (c : Z) : bool :=
  (55296 <=? c) && (c <=? 56319).

Definition is_low_surrogate (c : Z) : bool :=
  (56320 <=? c) && (c <=? 57343).

Definition byte (n : Z) : ascii := ascii_of_N (Z.to_N n).

(** The UTF-8 bytes of a code point, before what follows. *)
Definition utf8 (c : Z) (t : string) : string :=
  if c <? 128 then String (byte c) t
  else if c <? 2048 then
    String (byte (192 + c / 64)) (String (byte (128 + c mod 64)) t)
  else if c <? 65536 then
    String (byte (224 + c / 4096))
      (String (byte (128 + (c / 64) mod 64))
         (String (byte (128 + c mod 64)) t))
  else
    String (byte (240 + c / 262144))
      (String (byte (128 + (c / 4096) mod 64))
         (String (byte (128 + (c / 64) mod 64))
            (String (byte (128 + c mod 64)) t))).

(** The character of code [c], before the characters [t]. *)
Definition code_point (c : Z) (t : pystr) : pystr :=
  if (is_high_surrogate c || is_low_surrogate c)%bool then Surrogate c :: t
  else (text (utf8 c EmptyString) ++ t)%list.

(** [scanstring], in strict mode, from just after the opening quote at
    [begin].  [fuel] is at least the length of [s]. *)
Fixpoint scanstring (fuel : nat) (s : string) (pos : nat) (begin : nat)
  : scanned pystr :=
  match fuel with
  | O => Failed "Unterminated string starting at" begin
  | S fuel' =>
      match s with
      | EmptyString => Failed "Unterminated string starting at" begin
      | String a s' =>
          if Ascii.eqb a quote then Scanned [] s' (S pos)
          else if Ascii.eqb a backslash then
            match s' with
            | EmptyString => Failed "Unterminated string starting at" begin
            | String esc s'' =>
                if Ascii.eqb esc "u" then
                  match hex4 s'' with
                  | None =>
                      Failed ("Invalid " ++ String backslash "uXXXX escape")
                             (S pos)
                  | Some (c, rest) =>
                      let single :=
                        match scanstring fuel' rest (pos + 6)%nat begin with
                        | Scanned t rest' p => Scanned (code_point c t) rest' p
                        | Failed msg p => Failed msg p
                        end in
                      if is_high_surrogate c then
                        match rest with
                        | String b1 (String b2 rest2) =>
                            if (Ascii.eqb b1 backslash && Ascii.eqb b2 "u")%bool
                            then
                              match rest2 with
                              | String _ (String _ (String _ (String _
                                  (String _ _)))) =>
                                  match hex4 rest2 with
                                  | None =>
                                      Failed
                                        ("Invalid " ++ String backslash
                                           "uXXXX escape") (pos + 7)%nat
                                  | Some (c2, rest3) =>
                                      if is_low_surrogate c2 then
                                        match scanstring fuel' rest3
                                                (pos + 12)%nat begin with
                                        | Scanned t rest' p =>
                                            Scanned
                                              (code_point
                                                 (65536
                                                  + (c - 55296) * 1024
                                                  + (c2 - 56320)) t)
                                              rest' p
                                        | Failed msg p => Failed msg p
                                        end
                                      else single
                                  end
                              | _ => single
                              end
                            else single
                        | _ => single
                        end
                      else single
                  end
                else
                  match unescape esc with
                  | Some c =>
                      match scanstring fuel' s'' (S (S pos)) begin with
                      | Scanned t rest p => Scanned (Char c :: t) rest p
                      | Failed msg p => Failed msg p
                      end
                  | None =>
                      Failed ("Invalid " ++ String backslash "escape") pos
                  end
            end
          else if Nat.ltb (nat_of_ascii a) 32 then
            Failed "Invalid control character at" pos
          else
            match scanstring fuel' s' (S pos) begin with
            | Scanned t rest p => Scanned (Char a :: t) rest p
            | Failed msg p => Failed msg p
            end
      end
  end.

(** [dict(pairs)]: a key given again keeps its place and takes the new
    value. *)
Fixpoint dict_set (key : pystr) (v : pyobject)
    (d : list (pystr * pyobject)) : list (pystr * pyobject) :=
  match d with
  | [] => [(key, v)]
  | (k, x) :: d' =>
      if pystr_eqb k key then (k, v) :: d' else (k, x) :: dict_set key v d'
  end.

Definition expect (c : ascii) (msg : string) (s : string) (pos : nat)
  : scanned unit :=
  match s with
  | String a s' => if Ascii.eqb a c then Scanned tt s' (S pos) else Failed msg pos
  | EmptyString => Failed msg pos
  end.

(** [scan_once], with [JSONArray] and [JSONObject] after their first
    item.  [fuel] bounds the depth of the calls. *)
Fixpoint scan_once (fuel : nat) (s : string) (pos : nat)
  : scanned pyobject :=
  match fuel with
  | O => Failed "Expecting value" pos
  | S fuel' =>
      match s with
      | EmptyString => Failed "Expecting value" pos
      | String a s' =>
          if Ascii.eqb a quote then
            match scanstring (String.length s') s' (S pos) pos with
            | Scanned t rest p => Scanned (ObjStr t) rest p
            | Failed msg p => Failed msg p
            end
          else if Ascii.eqb a "{" then
            let (s1, p1) := skip_ws s' (S pos) in
            match s1 with
            | String "}" rest => Scanned (ObjDict []) rest (S p1)
            | _ =>
                match object_items fuel' s1 p1 [] with
                | Scanned d rest p => Scanned (ObjDict d) rest p
                | Failed msg p => Failed msg p
                end
            end
          else if Ascii.eqb a "[" then
            let (s1, p1) := skip_ws s' (S pos) in
            match s1 with
            | String "]" rest => Scanned (ObjList []) rest (S p1)
            | _ =>
                match array_items fuel' s1 p1 with
                | Scanned xs rest p => Scanned (ObjList xs) rest p
                | Failed msg p => Failed msg p
                end
            end
          else
            match strip_prefix "null" s, strip_prefix "true" s,
                  strip_prefix "false" s with
            | Some rest, _, _ => Scanned ObjNone rest (pos + 4)
            | _, Some rest, _ => Scanned (ObjBool true) rest (pos + 4)
            | _, _, Some rest => Scanned (ObjBool false) rest (pos + 5)
            | None, None, None =>
                match match_number s pos with
                | Some r => r
                | None =>
                    match strip_prefix "NaN" s, strip_prefix "Infinity" s,
                          strip_prefix "-Infinity" s with
                    | Some rest, _, _ =>
                        Scanned (ObjFloat NaN) rest (pos + 3)
                    | _, Some rest, _ =>
                        Scanned (ObjFloat (Infinity false)) rest (pos + 8)
                    | _, _, Some rest =>
                        Scanned (ObjFloat (Infinity true)) rest (pos + 9)
                    | None, None, None => Failed "Expecting value" pos
                    end
                end
            end
      end
  end

(** The items of an array from the head of an item on. *)
with array_items (fuel : nat) (s : string) (pos : nat)
  : scanned (list pyobject) :=
  match fuel with
  | O => Failed "Expecting value" pos
  | S fuel' =>
      match scan_once fuel' s pos with
      | Failed msg p => Failed msg p
      | Scanned v s1 p1 =>
          let (s2, p2) := skip_ws s1 p1 in
          match s2 with
          | String "]" rest => Scanned [v] rest (S p2)
          | String "," s3 =>
              let (s4, p4) := skip_ws s3 (S p2) in
              match array_items fuel' s4 p4 with
              | Scanned vs rest p => Scanned (v :: vs) rest p
              | Failed msg p => Failed msg p
              end
          | _ => Failed "Expecting ',' delimiter" p2
          end
      end
  end

(** The pairs of an object from the quote of a key on, after the pairs
    [acc]. *)
with object_items (fuel : nat) (s : string) (pos : nat)
                  (acc : list (pystr * pyobject))
  : scanned (list (pystr * pyobject)) :=
  match fuel with
  | O => Failed "Expecting value" pos
  | S fuel' =>
      match s with
      | String a s0 =>
          if Ascii.eqb a quote then
            match scanstring (String.length s0) s0 (S pos) pos with
            | Failed msg p => Failed msg p
            | Scanned key s1 p1 =>
                let (s2, p2) := skip_ws s1 p1 in
                match expect ":" "Expecting ':' delimiter" s2 p2 with
                | Failed msg p => Failed msg p
                | Scanned _ s3 p3 =>
                    let (s4, p4) := skip_ws s3 p3 in
                    match scan_once fuel' s4 p4 with
                    | Failed msg p => Failed msg p
                    | Scanned v s5 p5 =>
                        let acc' := dict_set key v acc in
                        let (s6, p6) := skip_ws s5 p5 in
                        match s6 with
                        | String "}" rest => Scanned acc' rest (S p6)
                        | String "," s7 =>
                            let (s8, p8) := skip_ws s7 (S p6) in
                            object_items fuel' s8 p8 acc'
                        | _ => Failed "Expecting ',' delimiter" p6
                        end
                    end
                end
            end
          else
            Failed "Expecting property name enclosed in double quotes" pos
      | EmptyString =>
          Failed "Expecting property name enclosed in double quotes" pos
      end
  end.

(** Line and column of position [pos] of [doc], both from 1. *)
Fixpoint line_col (doc : string) (pos : nat) (line col : nat) : nat * nat :=
  match pos, doc with
  | S pos', String a doc' =>
      if Nat.eqb (nat_of_ascii a) 10 then line_col doc' pos' (S line) 1
      else line_col doc' pos' line (S col)
  | _, _ => (line, col)
  end.

Definition string_of_nat (n : nat) : string := string_of_Z (Z.of_nat n).

(** [str] of a [JSONDecodeError]. *)
Definition errmsg (msg doc : string) (pos : nat) : string :=
  let (line, col) := line_col doc pos 1 1 in
  msg ++ ": line " ++ string_of_nat line ++ " column " ++ string_of_nat col
      ++ " (char " ++ string_of_nat pos ++ ")".

Definition JSONDecodeError (msg doc : string) (pos : nat) : exn :=
  Exc "JSONDecodeError" (errmsg msg doc pos).

(** [json.loads(doc)] *)
Definition loads (doc : string) : exn + pyobject :=
  let (s0, p0) := skip_ws doc 0 in
  match scan_once (2 * String.length doc + 2) s0 p0 with
  | Failed msg p => inl (JSONDecodeError msg doc p)
  | Scanned v s1 p1 =>
      let (s2, p2) := skip_ws s1 p1 in
      match s2 with
      | EmptyString => inr v
      | String _ _ => inl (JSONDecodeError "Extra data" doc p2)
      end
  end.

End JsonDecoder.

(** ** A helper package, a decoder and a validator to run the gateway on *)

Module Demo.

(** The world: how many calls the helper has served. *)
Definition World : Type := nat.

Definition quoted (s : string) : string :=
  String JsonDecoder.quote s ++ String JsonDecoder.quote "".

(** The text of the end-to-end example: an object with the keys symbol
    and price. *)
Definition aapl_info : string :=
  "{" ++ quoted "symbol" ++ ":" ++ quoted "AAPL" ++ ","
      ++ quoted "price" ++ ":150.0}".


Definition known (symbol : string) : bool :=
  (String.eqb symbol "AAPL" || String.eqb symbol "MSFT")%bool.

Definition valid_periods : list string :=
  ["1d"; "5d"; "1mo"; "3mo"; "6mo"; "1y"; "2y"; "5y"; "10y"; "ytd"; "max"].

Definition valid_intervals : list string :=
  ["1m"; "2m"; "5m"; "15m"; "30m"; "60m"; "90m"; "1h"; "1d"; "5d"; "1wk";
   "1mo"; "3mo"].

Definition member (s : string) (l : list string) : bool :=
  existsb (String.eqb s) l.

Definition not_found_exn (symbol : string) : exn :=
  Exc "ValueError" ("No data found for " ++ symbol).

Definition not_found {A} (symbol : string) (w : World) : (exn + A) * World :=
  (inl (not_found_exn symbol), S w).

(** The text of an object whose price is the text NaN. *)
Definition nvda_info : string :=
  "{" ++ quoted "symbol" ++ ":" ++ quoted "NVDA" ++ ","
      ++ quoted "price" ++ ":NaN}".

(** The text of a string written with the escape of a lone surrogate. *)
Definition amzn_info : string :=
  quoted (String JsonDecoder.backslash "ud83d").

(** AAPL has its info as JSON text, MSFT a text that is not JSON, TSLA a
    number out of the range of a float, NVDA an object with a price that
    is not a number, AMZN a string with a lone surrogate, any other symbol
    is not found; news and search answer
    with the count they were given; a period or an interval outside the
    legal ones is rejected. *)
Definition helper : helper_package World :=
  mkHelper World
    (fun symbol w =>
       if String.eqb symbol "AAPL" then (inr aapl_info, S w)
       else if String.eqb symbol "MSFT" then (inr "MSFT: no info", S w)
       else if String.eqb symbol "TSLA" then (inr "1e400", S w)
       else if String.eqb symbol "NVDA" then (inr nvda_info, S w)
       else if String.eqb symbol "AMZN" then (inr amzn_info, S w)
       else not_found symbol w)
    (fun symbol count w =>
       if known symbol
       then (inr (PyList [PyDict [("symbol", PyStr symbol);
                                  ("count", PyInt count)]]), S w)
       else not_found symbol w)
    (fun q count w =>
       if String.eqb q "" then (inl (Exc "TimeoutError" "timed out"), S w)
       else (inr (PyList [PyDict [("query", PyStr q);
                                  ("count", PyInt count)]]), S w))
    (fun symbol period interval w =>
       if negb (known symbol) then not_found symbol w
       else if (member period valid_periods
                && member interval valid_intervals)%bool
       then (inr (PyDict [("symbol", PyStr symbol);
                          ("period", PyStr period);
                          ("interval", PyStr interval)]), S w)
       else (inl (Exc "ValueError"
                      ("Invalid period or interval: " ++ period ++ ", "
                         ++ interval)), S w)).

Fixpoint all_zeros (s : string) : bool :=
  match s with
  | EmptyString => true
  | String a s' => Ascii.eqb a "0" && all_zeros s'
  end.

(** Space, and the control characters from tab to carriage return. *)
Definition is_blank (a : ascii) : bool :=
  let n := nat_of_ascii a in
  (Nat.eqb n 32 || (Nat.leb 9 n && Nat.leb n 13))%bool.

Fixpoint trim_left (s : string) : string :=
  match s with
  | String a s' => if is_blank a then trim_left s' else s
  | EmptyString => s
  end.

Fixpoint trim_right (s : string) : string :=
  match s with
  | EmptyString => EmptyString
  | String a s' =>
      match trim_right s' with
      | EmptyString => if is_blank a then EmptyString else String a EmptyString
      | t => String a t
      end
  end.

Definition is_digit (a : ascii) : bool :=
  match JsonDecoder.digit a with Some _ => true | None => false end.

(** The digits of [s], after [acc]: single underscores are allowed
    between two digits, and nothing else is. *)
Fixpoint grouped_digits (s : string) (acc : Z) (after_digit : bool)
  : option Z :=
  match s with
  | EmptyString => if after_digit then Some acc else None
  | String a s' =>
      match JsonDecoder.digit a with
      | Some d => grouped_digits s' (10 * acc + d) true
      | None =>
          if (Ascii.eqb a "_" && after_digit)%bool then
            match s' with
            | String b _ =>
                if is_digit b then grouped_digits s' acc false else None
            | EmptyString => None
            end
          else None
      end
  end.

(** What is before the first dot of [s], and what is after it. *)
Fixpoint split_dot (s : string) : string * option string :=
  match s with
  | EmptyString => (EmptyString, None)
  | String a s' =>
      if Ascii.eqb a "." then (EmptyString, Some s')
      else let (i, f) := split_dot s' in (String a i, f)
  end.

(** The texts taken for an integer: between blanks, an optional sign,
    digits with single underscores between them, and an optional dot
    followed by zeros only. *)
Definition int_validate (txt : string) : option Z :=
  let '(neg, s) :=
    match trim_right (trim_left txt) with
    | String "-" s' => (true, s')
    | String "+" s' => (false, s')
    | s' => (false, s')
    end in
  let (i, f) := split_dot s in
  match grouped_digits i 0 false, f with
  | Some v, None => Some (JsonDecoder.signed neg v)
  | Some v, Some zeros =>
      if all_zeros zeros then Some (JsonDecoder.signed neg v) else None
  | None, _ => None
  end.

Definition serve : request -> World -> response * World * list event :=
  serve World helper JsonDecoder.loads int_validate.

End Demo.

Definition GET (p : string) (q : list (string * string)) : request :=
  mkRequest "GET" p q.

(** The value of an optional textual parameter. *)
Definition or_default (default : string) (v : option string) : string :=
  match v with Some s => s | None => default end.

(** A call of an endpoint function, with the arguments it is given. *)
Inductive endpoint_call : Type :=
| call_health_check
| call_get_info (symbol : string)
| call_get_news (symbol : string) (count : Z)
| call_search (q : string) (count : Z)
| call_price_history (symbol period interval : string).

Definition run_endpoint (World : Type) (helper : helper_package World)
    (json_loads : string -> exn + pyobject) (c : endpoint_call)
  : M World pyobject :=
  match c with
  | call_health_check => health_check World
  | call_get_info symbol => get_info World helper json_loads symbol
  | call_get_news symbol count => get_news World helper symbol count
  | call_search q count => search World helper q count
  | call_price_history symbol period interval =>
      price_history World helper symbol period interval
  end.

(** The path of the route an endpoint function is registered on. *)
Definition template_of (c : endpoint_call) : path_template :=
  match c with
  | call_health_check => Static "/health"
  | call_get_info _ => Param "/api/ticker/" "symbol"
  | call_get_news _ _ => Param "/api/news/" "symbol"
  | call_search _ _ => Static "/api/search"
  | call_price_history _ _ _ => Param "/api/price-history/" "symbol"
  end.

(** The helper call an endpoint function makes, if it makes one. *)
Definition helper_call_of (c : endpoint_call) : option call :=
  match c with
  | call_health_check => None
  | call_get_info symbol => Some (Call_get_ticker_info symbol)
  | call_get_news symbol count => Some (Call_get_ticker_news symbol count)
  | call_search q count => Some (Call_search_yahoo_finance q count)
  | call_price_history symbol period interval =>
      Some (Call_get_price_history symbol period interval)
  end.

(** The five routes of the route table of the specification. *)
Definition five_routes : list (string * path_template) :=
  [ ("GET", Static "/health");
    ("GET", Param "/api/ticker/" "symbol");
    ("GET", Param "/api/news/" "symbol");
    ("GET", Static "/api/search");
    ("GET", Param "/api/price-history/" "symbol") ].

(** The four routes FastAPI registers by default for its own pages, each
    for GET and HEAD. *)
Definition framework_routes : list (list string * path_template) :=
  [ (["GET"; "HEAD"], Static "/openapi.json");
    (["GET"; "HEAD"], Static "/docs");
    (["GET"; "HEAD"], Static "/docs/oauth2-redirect");
    (["GET"; "HEAD"], Static "/redoc") ].

(** A request that one of the five routes takes: a GET whose path a
    template of the five matches. *)
Definition taken_by_the_five (req : request) : Prop :=
  method req = "GET"
  /\ exists t, In ("GET", t) five_routes /\ match_path t (path req) <> None.

(** A request that a route of the framework takes: a GET or a HEAD whose
    path is that of one of its four pages. *)
Definition taken_by_the_framework (req : request) : Prop :=
  exists ms t,
    In (ms, t) framework_routes
    /\ In (method req) ms
    /\ match_path t (path req) <> None.

(** The requests with a client input error: a GET on /api/search without
    the parameter q, and a GET on /api/search or on /api/news/{symbol} whose
    parameter count does not validate as an integer. *)
Definition lacks_q (q : list (string * string)) : bool :=
  match multidict_get "q" q with Some _ => false | None => true end.

Definition malformed_count (int_validate : string -> option Z)
    (q : list (string * string)) : bool :=
  match multidict_get "count" q with
  | Some txt =>
      match int_validate txt with Some _ => false | None => true end
  | None => false
  end.

Definition client_input_error (int_validate : string -> option Z)
    (req : request) : bool :=
  String.eqb (method req) "GET"
  && ((String.eqb (path req) "/api/search"
       && (lacks_q (query_params req)
           || malformed_count int_validate (query_params req)))
      || match strip_prefix "/api/news/" (path req) with
         | Some symbol =>
             is_segment symbol
             && malformed_count int_validate (query_params req)
         | None => false
         end).

(** The listener can be configured when some environment or command line
    moves it from where it is without any. *)
Definition configurable : Prop :=
  exists environ argv, main environ argv <> main [] [].

(** ** What a request is answered with, taken apart *)

Definition response_of {W : Type} (x : response * W * list event) : response :=
  fst (fst x).

Definition world_of {W : Type} (x : response * W * list event) : W :=
  snd (fst x).

Definition events_of {W : Type} (x : response * W * list event) : list event :=
  snd x.

(** ** Where the arguments of an endpoint call come from *)

(** The count an endpoint function is given: 10 when the query has no
    count, and else what the last count of the query validates to. *)
Definition count_from (int_validate : string -> option Z)
    (q : list (string * string)) (n : Z) : Prop :=
  match multidict_get "count" q with
  | None => n = 10
  | Some txt => int_validate txt = Some n
  end.

(** The arguments of the endpoint call [c] are those of the request: the
    symbol is what follows the prefix of the route in the path, the other
    arguments are read in the query. *)
Definition arguments_from (int_validate : string -> option Z)
    (req : request) (c : endpoint_call) : Prop :=
  match c with
  | call_health_check => True
  | call_get_info symbol =>
      path req = "/api/ticker/" ++ symbol /\ is_segment symbol = true
  | call_get_news symbol count =>
      path req = "/api/news/" ++ symbol /\ is_segment symbol = true
      /\ count_from int_validate (query_params req) count
  | call_search q count =>
      multidict_get "q" (query_params req) = Some q
      /\ count_from int_validate (query_params req) count
  | call_price_history symbol period interval =>
      path req = "/api/price-history/" ++ symbol /\ is_segment symbol = true
      /\ period = or_default "1y" (multidict_get "period" (query_params req))
      /\ interval
         = or_default "1d" (multidict_get "interval" (query_params req))
  end.

(** The symbol of a helper call, for the three calls that have one. *)
Definition symbol_of (c : call) : option string :=
  match c with
  | Call_get_ticker_info symbol => Some symbol
  | Call_get_ticker_news symbol _ => Some symbol
  | Call_get_price_history symbol _ _ => Some symbol
  | Call_search_yahoo_finance _ _ => None
  | Call_get_top_entities _ => None
  end.

(** The count of a helper call, for the two calls that have one. *)
Definition count_of (c : call) : option Z :=
  match c with
  | Call_get_ticker_news _ count => Some count
  | Call_search_yahoo_finance _ count => Some count
  | _ => None
  end.

(** ** Proof steps *)

(** Splits on what a helper coroutine [f] does in the world. *)
Ltac helper_cases f :=
  let e := fresh "e" in
  let v := fresh "v" in
  let w := fresh "w" in
  destruct f as [[e|v] w].

(** The event [Awaited c _] is among those of the endpoint call [ec],
    whose helper call [Hc] gives: [c] is one of the four calls. *)
Ltac not_top_entities ec Hc :=
  destruct ec; simpl in Hc; inversion Hc; reflexivity.

(** * What the gateway does *)

Lemma strip_prefix_app (p s : string) : strip_prefix p (p ++ s) = Some s.
Proof.
  induction p as [|a p IH]; simpl; [reflexivity|].
  rewrite Ascii.eqb_refl. exact IH.
Qed.

Lemma match_path_param (prefix name v : string) :
  is_segment v = true ->
  match_path (Param prefix name) (prefix ++ v) = Some [(name, v)].
Proof.
  intros Hv. unfold match_path. rewrite strip_prefix_app, Hv. reflexivity.
Qed.

Lemma strip_prefix_inv (p s v : string) :
  strip_prefix p s = Some v -> s = p ++ v.
Proof.
  revert s. induction p as [|a p IH]; simpl; intros s H.
  - congruence.
  - destruct s as [|b s]; [discriminate|].
    destruct (Ascii.eqb a b) eqn:E; [|discriminate].
    apply Ascii.eqb_eq in E. subst b. f_equal. now apply IH.
Qed.

Lemma match_path_param_inv (prefix name p : string) pp :
  match_path (Param prefix name) p = Some pp ->
  exists v, p = prefix ++ v /\ is_segment v = true /\ pp = [(name, v)].
Proof.
  unfold match_path. destruct (strip_prefix prefix p) as [v|] eqn:E;
    [|discriminate].
  destruct (is_segment v) eqn:Hv; [|discriminate].
  intros [= <-]. exists v. auto using strip_prefix_inv.
Qed.

Lemma match_path_static_inv (s p : string) pp :
  match_path (Static s) p = Some pp ->
  (p = s \/ p = s ++ newline) /\ pp = [].
Proof.
  unfold match_path.
  destruct (String.eqb p s) eqn:E1; simpl.
  - intros [= <-]. apply String.eqb_eq in E1. auto.
  - destruct (String.eqb p (s ++ newline)) eqn:E2; [|discriminate].
    intros [= <-]. apply String.eqb_eq in E2. auto.
Qed.

(** A JSON value renders to itself. *)
Lemma encode_utf8_text (s : string) : encode_utf8 (text s) = Some s.
Proof.
  induction s as [|a s IH]; simpl; [reflexivity|].
  rewrite IH. reflexivity.
Qed.

Lemma render_of_json (v : pyval) : render (of_json v) = Some v.
Proof.
  revert v. fix IH 1.
  intros [ | b | n | m e | s | items | entries]; simpl; try reflexivity.
  - rewrite encode_utf8_text. reflexivity.
  - assert (H : (fix render_items (l : list pyobject) : option (list pyval) :=
                   match l with
                   | [] => Some []
                   | x :: l' =>
                       match render x, render_items l' with
                       | Some v, Some vs => Some (v :: vs)
                       | _, _ => None
                       end
                   end) (map of_json items) = Some items).
    { induction items as [|x l IHl]; simpl; [reflexivity|].
      rewrite IH, IHl. reflexivity. }
    rewrite H. reflexivity.
  - assert (H : (fix render_entries (l : list (pystr * pyobject))
                   : option (list (string * pyval)) :=
                   match l with
                   | [] => Some []
                   | (k, x) :: l' =>
                       match encode_utf8 k, render x, render_entries l' with
                       | Some key, Some v, Some vs => Some ((key, v) :: vs)
                       | _, _, _ => None
                       end
                   end)
                  (map (fun kv => (text (fst kv), of_json (snd kv))) entries)
                = Some entries).
    { induction entries as [|[k x] l IHl]; simpl; [reflexivity|].
      rewrite encode_utf8_text, IH, IHl. reflexivity. }
    rewrite H. reflexivity.
Qed.

Section GatewayFacts.

Variable World : Type.
Variable helper : helper_package World.
Variable json_loads : string -> exn + pyobject.
Variable int_validate : string -> option Z.

Local Abbreviation get_info := (get_info World helper json_loads).
Local Abbreviation get_news := (get_news World helper).
Local Abbreviation search := (search World helper).
Local Abbreviation price_history := (price_history World helper).
Local Abbreviation app := (app World helper json_loads int_validate).
Local Abbreviation serve := (serve World helper json_loads int_validate).
Local Abbreviation query_int := (query_int int_validate).

(** ** The runs of the endpoint functions *)

Lemma health_check_run (w : World) :
  health_check World w
  = (inr (ObjDict [(text "status", ObjStr (text "ok"))]), w, []).
Proof. reflexivity. Qed.

Lemma get_info_run (symbol : string) (w : World) :
  get_info symbol w =
  match helper_get_ticker_info World helper symbol w with
  | (inr info_json, w1) =>
      match json_loads info_json with
      | inr o => (inr o, w1, [Awaited (Call_get_ticker_info symbol) None])
      | inl e =>
          (inl (HTTPException 500 (str e)), w1,
           [Awaited (Call_get_ticker_info symbol) None;
            LoggerError
              ("Error fetching info for " ++ symbol ++ ": " ++ str e)])
      end
  | (inl e, w1) =>
      (inl (HTTPException 500 (str e)), w1,
       [Awaited (Call_get_ticker_info symbol) (Some e);
        LoggerError ("Error fetching info for " ++ symbol ++ ": " ++ str e)])
  end.
Proof.
  unfold server_http.get_info, try_except, bind, get_ticker_info, await, lift,
    logger_error, raise.
  destruct (helper_get_ticker_info World helper symbol w) as [[e|txt] w1];
    simpl; [reflexivity|].
  destruct (json_loads txt); reflexivity.
Qed.

Lemma get_news_run (symbol : string) (count : Z) (w : World) :
  get_news symbol count w =
  match helper_get_ticker_news World helper symbol count w with
  | (inr news, w1) =>
      (inr (of_json news), w1,
       [Awaited (Call_get_ticker_news symbol count) None])
  | (inl e, w1) =>
      (inl (HTTPException 500 (str e)), w1,
       [Awaited (Call_get_ticker_news symbol count) (Some e);
        LoggerError ("Error fetching news for " ++ symbol ++ ": " ++ str e)])
  end.
Proof.
  unfold server_http.get_news, try_except, bind, get_ticker_news, await,
    as_object, logger_error, raise, ret.
  helper_cases (helper_get_ticker_news World helper symbol count w);
    reflexivity.
Qed.

Lemma search_run (q : string) (count : Z) (w : World) :
  search q count w =
  match helper_search_yahoo_finance World helper q count w with
  | (inr results, w1) =>
      (inr (of_json results), w1,
       [Awaited (Call_search_yahoo_finance q count) None])
  | (inl e, w1) =>
      (inl (HTTPException 500 (str e)), w1,
       [Awaited (Call_search_yahoo_finance q count) (Some e);
        LoggerError ("Error searching for " ++ q ++ ": " ++ str e)])
  end.
Proof.
  unfold server_http.search, try_except, bind, search_yahoo_finance, await,
    as_object, logger_error, raise, ret.
  helper_cases (helper_search_yahoo_finance World helper q count w);
    reflexivity.
Qed.

Lemma price_history_run (symbol period interval : string) (w : World) :
  price_history symbol period interval w =
  match helper_get_price_history World helper symbol period interval w with
  | (inr history, w1) =>
      (inr (of_json history), w1,
       [Awaited (Call_get_price_history symbol period interval) None])
  | (inl e, w1) =>
      (inl (HTTPException 500 (str e)), w1,
       [Awaited (Call_get_price_history symbol period interval) (Some e);
        LoggerError
          ("Error fetching price history for " ++ symbol ++ ": " ++ str e)])
  end.
Proof.
  unfold server_http.price_history, try_except, bind, get_price_history, await,
    as_object, logger_error, raise, ret.
  helper_cases
    (helper_get_price_history World helper symbol period interval w);
    reflexivity.
Qed.

(** ** The responses to the runs *)

Local Abbreviation respond := (respond World).

Lemma respond_health_check (w : World) :
  respond (health_check World) w =
  (JSONResponse 200 (PyDict [("status", PyStr "ok")]), w, []).
Proof. reflexivity. Qed.

Lemma respond_get_info (symbol : string) (w : World) :
  respond (get_info symbol) w =
  match helper_get_ticker_info World helper symbol w with
  | (inr info_json, w1) =>
      match json_loads info_json with
      | inr o =>
          match render o with
          | Some v =>
              (JSONResponse 200 v, w1,
               [Awaited (Call_get_ticker_info symbol) None])
          | None =>
              (PlainTextResponse 500 "Internal Server Error", w1,
               [Awaited (Call_get_ticker_info symbol) None])
          end
      | inl e =>
          (JSONResponse 500 (detail_body (str e)), w1,
           [Awaited (Call_get_ticker_info symbol) None;
            LoggerError
              ("Error fetching info for " ++ symbol ++ ": " ++ str e)])
      end
  | (inl e, w1) =>
      (JSONResponse 500 (detail_body (str e)), w1,
       [Awaited (Call_get_ticker_info symbol) (Some e);
        LoggerError ("Error fetching info for " ++ symbol ++ ": " ++ str e)])
  end.
Proof.
  unfold server_http.respond. rewrite get_info_run.
  destruct (helper_get_ticker_info World helper symbol w) as [[e|txt] w1];
    [reflexivity|].
  destruct (json_loads txt) as [e|o]; [reflexivity|].
  destruct (render o); reflexivity.
Qed.

Lemma respond_get_news (symbol : string) (count : Z) (w : World) :
  respond (get_news symbol count) w =
  match helper_get_ticker_news World helper symbol count w with
  | (inr news, w1) =>
      (JSONResponse 200 news, w1,
       [Awaited (Call_get_ticker_news symbol count) None])
  | (inl e, w1) =>
      (JSONResponse 500 (detail_body (str e)), w1,
       [Awaited (Call_get_ticker_news symbol count) (Some e);
        LoggerError ("Error fetching news for " ++ symbol ++ ": " ++ str e)])
  end.
Proof.
  unfold server_http.respond. rewrite get_news_run.
  helper_cases (helper_get_ticker_news World helper symbol count w);
    [reflexivity|].
  rewrite render_of_json. reflexivity.
Qed.

Lemma respond_search (q : string) (count : Z) (w : World) :
  respond (search q count) w =
  match helper_search_yahoo_finance World helper q count w with
  | (inr results, w1) =>
      (JSONResponse 200 results, w1,
       [Awaited (Call_search_yahoo_finance q count) None])
  | (inl e, w1) =>
      (JSONResponse 500 (detail_body (str e)), w1,
       [Awaited (Call_search_yahoo_finance q count) (Some e);
        LoggerError ("Error searching for " ++ q ++ ": " ++ str e)])
  end.
Proof.
  unfold server_http.respond. rewrite search_run.
  helper_cases (helper_search_yahoo_finance World helper q count w);
    [reflexivity|].
  rewrite render_of_json. reflexivity.
Qed.

Lemma respond_price_history (symbol period interval : string) (w : World) :
  respond (price_history symbol period interval) w =
  match helper_get_price_history World helper symbol period interval w with
  | (inr history, w1) =>
      (JSONResponse 200 history, w1,
       [Awaited (Call_get_price_history symbol period interval) None])
  | (inl e, w1) =>
      (JSONResponse 500 (detail_body (str e)), w1,
       [Awaited (Call_get_price_history symbol period interval) (Some e);
        LoggerError
          ("Error fetching price history for " ++ symbol ++ ": " ++ str e)])
  end.
Proof.
  unfold server_http.respond. rewrite price_history_run.
  helper_cases
    (helper_get_price_history World helper symbol period interval w);
    [reflexivity|].
  rewrite render_of_json. reflexivity.
Qed.

(** ** Routing *)

Lemma find_route_sound routes req r pp :
  find_route World routes req = Some (r, pp) ->
  In r routes
  /\ match_path (route_path World r) (path req) = Some pp
  /\ In (method req) (route_methods World r).
Proof.
  induction routes as [|r0 rest IH]; simpl; [discriminate|].
  destruct (match_path (route_path World r0) (path req)) as [pp0|] eqn:Hm.
  - destruct (existsb (String.eqb (method req)) (route_methods World r0))
      eqn:Hmeth.
    + intros [= <- <-]. apply existsb_exists in Hmeth as (m & Hin & Heq).
      apply String.eqb_eq in Heq. subst m. auto.
    + intros H. apply IH in H. tauto.
  - intros H. apply IH in H. tauto.
Qed.

(** A GET on the path of a route that calls the helper reaches the
    endpoint function of that route. *)
Lemma serve_ticker (symbol : string) q (w : World) :
  is_segment symbol = true ->
  serve (GET ("/api/ticker/" ++ symbol) q) w = respond (get_info symbol) w.
Proof.
  intros Hs. unfold server_http.serve, GET. cbn. rewrite Hs. reflexivity.
Qed.

Lemma serve_news (symbol : string) q (w : World) :
  is_segment symbol = true ->
  serve (GET ("/api/news/" ++ symbol) q) w =
  match query_int "count" 10 q with
  | Valid count => respond (get_news symbol count) w
  | Errors locs => (RequestValidationError locs, w, [])
  end.
Proof.
  intros Hs. unfold server_http.serve, GET. cbn. rewrite Hs. cbn.
  destruct (query_int "count" 10 q); reflexivity.
Qed.

Lemma serve_search q (w : World) :
  serve (GET "/api/search" q) w =
  match query_str_required "q" q, query_int "count" 10 q with
  | Valid text, Valid count => respond (search text count) w
  | Valid _, Errors locs => (RequestValidationError locs, w, [])
  | Errors locs, Valid _ => (RequestValidationError locs, w, [])
  | Errors locs, Errors locs' =>
      (RequestValidationError (locs ++ locs'), w, [])
  end.
Proof.
  unfold server_http.serve, GET. cbn.
  destruct (query_str_required "q" q), (query_int "count" 10 q);
    reflexivity.
Qed.

Lemma serve_price_history (symbol : string) q (w : World) :
  is_segment symbol = true ->
  serve (GET ("/api/price-history/" ++ symbol) q) w =
  respond (price_history symbol
             (or_default "1y" (multidict_get "period" q))
             (or_default "1d" (multidict_get "interval" q))) w.
Proof.
  intros Hs. unfold server_http.serve, GET. cbn. rewrite Hs. cbn.
  unfold query_str.
  destruct (multidict_get "period" q), (multidict_get "interval" q);
    reflexivity.
Qed.

Local Abbreviation run_endpoint := (run_endpoint World helper json_loads).



(** ** A helper call that raises, endpoint by endpoint *)

Lemma ticker_failure (symbol : string) q (w : World) e w1 :
  is_segment symbol = true ->
  helper_get_ticker_info World helper symbol w = (inl e, w1) ->
  serve (GET ("/api/ticker/" ++ symbol) q) w =
  (JSONResponse 500 (detail_body (str e)), w1,
   [Awaited (Call_get_ticker_info symbol) (Some e);
    LoggerError ("Error fetching info for " ++ symbol ++ ": " ++ str e)]).
Proof.
  intros Hs Hh. rewrite serve_ticker by exact Hs.
  rewrite respond_get_info, Hh. reflexivity.
Qed.

Lemma news_failure (symbol : string) q n (w : World) e w1 :
  is_segment symbol = true ->
  query_int "count" 10 q = Valid n ->
  helper_get_ticker_news World helper symbol n w = (inl e, w1) ->
  serve (GET ("/api/news/" ++ symbol) q) w =
  (JSONResponse 500 (detail_body (str e)), w1,
   [Awaited (Call_get_ticker_news symbol n) (Some e);
    LoggerError ("Error fetching news for " ++ symbol ++ ": " ++ str e)]).
Proof.
  intros Hs Hq Hh. rewrite serve_news by exact Hs.
  rewrite Hq, respond_get_news, Hh. reflexivity.
Qed.

Lemma search_failure q text n (w : World) e w1 :
  multidict_get "q" q = Some text ->
  query_int "count" 10 q = Valid n ->
  helper_search_yahoo_finance World helper text n w = (inl e, w1) ->
  serve (GET "/api/search" q) w =
  (JSONResponse 500 (detail_body (str e)), w1,
   [Awaited (Call_search_yahoo_finance text n) (Some e);
    LoggerError ("Error searching for " ++ text ++ ": " ++ str e)]).
Proof.
  intros Ht Hq Hh. rewrite serve_search. unfold query_str_required.
  rewrite Ht, Hq, respond_search, Hh. reflexivity.
Qed.

Lemma price_history_failure (symbol : string) q (w : World) e w1 :
  is_segment symbol = true ->
  helper_get_price_history World helper symbol
    (or_default "1y" (multidict_get "period" q))
    (or_default "1d" (multidict_get "interval" q)) w = (inl e, w1) ->
  serve (GET ("/api/price-history/" ++ symbol) q) w =
  (JSONResponse 500 (detail_body (str e)), w1,
   [Awaited (Call_get_price_history symbol
               (or_default "1y" (multidict_get "period" q))
               (or_default "1d" (multidict_get "interval" q))) (Some e);
    LoggerError
      ("Error fetching price history for " ++ symbol ++ ": " ++ str e)]).
Proof.
  intros Hs Hh. rewrite serve_price_history by exact Hs.
  rewrite respond_price_history, Hh. reflexivity.
Qed.

(** ** The claims about requests *)



(** C3.  GET /health, whatever its query parameters, the world and the
    helper, is answered with status 200 and the object with the single
    key status and the value ok; no helper call is made, nothing is
    logged and the world is left as it was. *)
Theorem health_is_unconditional q (w : World) :
  serve (GET "/health" q) w =
  (JSONResponse 200 (PyDict [("status", PyStr "ok")]), w, []).
Proof.
  unfold server_http.serve, GET.
  (* no route of the framework takes the path, the route of /health does;
     its endpoint function has no parameter *)
  cbn -[server_http.respond server_http.health_check].
  apply respond_health_check.
Qed.

(** C4.  GET /api/price-history/{symbol} calls [get_price_history] on the
    symbol, on the period and on the interval of the query as they are
    written, 1y and 1d standing for an absent one; what the helper
    returns is the content of a 200, what it raises is answered with
    500, and no text of a period or of an interval is refused by the
    gateway itself. *)
Theorem price_history_passes_through (symbol : string) q (w : World) :
  is_segment symbol = true ->
  let period := or_default "1y" (multidict_get "period" q) in
  let interval := or_default "1d" (multidict_get "interval" q) in
  serve (GET ("/api/price-history/" ++ symbol) q) w =
  match helper_get_price_history World helper symbol period interval w with
  | (inr history, w1) =>
      (JSONResponse 200 history, w1,
       [Awaited (Call_get_price_history symbol period interval) None])
  | (inl e, w1) =>
      (JSONResponse 500 (PyDict [("detail", PyStr (str e))]), w1,
       [Awaited (Call_get_price_history symbol period interval) (Some e);
        LoggerError
          ("Error fetching price history for " ++ symbol ++ ": " ++ str e)])
  end
  /\ forall locs,
      fst (fst (serve (GET ("/api/price-history/" ++ symbol) q) w))
      <> RequestValidationError locs.
Proof.
  intros Hs period interval.
  rewrite serve_price_history by exact Hs.
  fold period interval. rewrite respond_price_history.
  split; [reflexivity|].
  intros locs.
  destruct (helper_get_price_history World helper symbol period interval w)
    as [[e|history] w1]; discriminate.
Qed.

(** C5.  GET /api/news/{symbol} with a count that validates to the
    integer [n] calls [get_ticker_news] on the symbol and on [n]; and
    the request without a count is answered, and leaves the world and
    the events, exactly as the request whose count validates to 10. *)
Theorem news_count_passes_through (symbol : string) q q0 q10 (w : World)
    txt n ten :
  is_segment symbol = true ->
  multidict_get "count" q = Some txt -> int_validate txt = Some n ->
  multidict_get "count" q0 = None ->
  multidict_get "count" q10 = Some ten -> int_validate ten = Some 10 ->
  serve (GET ("/api/news/" ++ symbol) q) w =
    match helper_get_ticker_news World helper symbol n w with
    | (inr news, w1) =>
        (JSONResponse 200 news, w1,
         [Awaited (Call_get_ticker_news symbol n) None])
    | (inl e, w1) =>
        (JSONResponse 500 (PyDict [("detail", PyStr (str e))]), w1,
         [Awaited (Call_get_ticker_news symbol n) (Some e);
          LoggerError
            ("Error fetching news for " ++ symbol ++ ": " ++ str e)])
    end
  /\ serve (GET ("/api/news/" ++ symbol) q0) w =
     serve (GET ("/api/news/" ++ symbol) q10) w.
Proof.
  intros Hs Hq Hn Hq0 Hq10 Hten.
  rewrite !serve_news by exact Hs.
  unfold server_http.query_int. rewrite Hq, Hn, Hq0, Hq10, Hten.
  split; [apply respond_get_news|reflexivity].
Qed.


Lemma respond_not_unrouted (m : M World pyobject) (w : World) :
  fst (fst (respond m w)) <> Unrouted.
Proof.
  unfold server_http.respond.
  destruct (m w) as [[[[cls msg|code detail]|o] w1] evs];
    try discriminate.
  destruct (render o); discriminate.
Qed.

Lemma find_route_complete routes req r :
  In r routes ->
  match_path (route_path World r) (path req) <> None ->
  In (method req) (route_methods World r) ->
  find_route World routes req <> None.
Proof.
  induction routes as [|r0 rest IH]; simpl; [tauto|].
  intros [->|Hin] Hm Hmeth.
  - destruct (match_path (route_path World r) (path req)); [|tauto].
    assert (H : existsb (String.eqb (method req)) (route_methods World r)
                = true).
    { apply existsb_exists. exists (method req).
      split; [exact Hmeth|apply String.eqb_refl]. }
    rewrite H. discriminate.
  - destruct (match_path (route_path World r0) (path req)); [|auto].
    destruct (existsb (String.eqb (method req)) (route_methods World r0));
      [discriminate|auto].
Qed.

(** C6, as amended.  A GET on /api/search without q, and a GET on
    /api/search or on /api/news/{symbol} whose count does not validate as
    an integer, is answered by the routing layer with a validation error,
    whose status is 422; no endpoint function is run: no helper call is
    made, nothing is logged, the world is left as it was. *)
Theorem client_input_error_is_422 req (w : World) :
  client_input_error int_validate req = true ->
  exists locs,
    serve req w = (RequestValidationError locs, w, [])
    /\ locs <> []
    /\ http_status (RequestValidationError locs) = Some 422.
Proof.
  destruct req as [m p q]. unfold client_input_error. cbn [method path query_params].
  intros H. apply andb_true_iff in H as [Hm H].
  apply String.eqb_eq in Hm. subst m.
  apply orb_true_iff in H as [H|H].
  - apply andb_true_iff in H as [Hp H]. apply String.eqb_eq in Hp. subst p.
    fold (GET "/api/search" q). rewrite serve_search.
    unfold lacks_q, malformed_count, query_str_required, server_http.query_int
      in *.
    destruct (multidict_get "q" q) as [text|],
      (multidict_get "count" q) as [txt|]; simpl in H;
      try discriminate;
      try (destruct (int_validate txt); try discriminate);
      eexists; (split; [reflexivity|split; [discriminate|reflexivity]]).
  - destruct (strip_prefix "/api/news/" p) as [symbol|] eqn:Hp;
      [|discriminate].
    apply strip_prefix_inv in Hp. subst p.
    apply andb_true_iff in H as [Hs H].
    fold (GET ("/api/news/" ++ symbol) q). rewrite serve_news by exact Hs.
    unfold malformed_count, server_http.query_int in *.
    destruct (multidict_get "count" q) as [txt|]; [|discriminate].
    destruct (int_validate txt); [discriminate|].
    eexists; (split; [reflexivity|split; [discriminate|reflexivity]]).
Qed.

End GatewayFacts.

(** ** The listener *)

(** C8, as amended.  The process binds its listener on host 0.0.0.0 and
    port 8000, whatever its environment and its command line. *)
Theorem listener_is_fixed environ argv :
  main environ argv = mkListener "0.0.0.0" 8000.
Proof. reflexivity. Qed.

(** C8, as stated, fails: no environment and no command line moves the
    listener. *)
Lemma listener_not_configurable : ~ configurable.
Proof.
  intros (environ & argv & H). apply H. reflexivity.
Qed.

(** * The gateway at work *)




(** C4 on a period outside the legal ones: it reaches the helper as it is
    written, with the default interval, and the helper's refusal is a
    500. *)
Lemma price_history_passes_through_witness :
  is_segment "AAPL" = true
  /\ Demo.serve (GET "/api/price-history/AAPL" [("period", "7w")]) 0%nat
     = (JSONResponse 500
          (PyDict [("detail", PyStr "Invalid period or interval: 7w, 1d")]),
        1%nat,
        [Awaited (Call_get_price_history "AAPL" "7w" "1d")
           (Some (Exc "ValueError" "Invalid period or interval: 7w, 1d"));
         LoggerError
           ("Error fetching price history for AAPL: "
              ++ "Invalid period or interval: 7w, 1d")])
  /\ forall locs,
      fst (fst (Demo.serve
                  (GET "/api/price-history/AAPL" [("period", "7w")]) 0%nat))
      <> RequestValidationError locs.
Proof.
  assert (H1 : is_segment "AAPL" = true) by reflexivity.
  split; [exact H1|].
  exact (price_history_passes_through Demo.World Demo.helper JsonDecoder.loads
           Demo.int_validate "AAPL" [("period", "7w")] 0%nat H1).
Defined.

(** C5 on a count of 3, and on no count against a count of 10. *)
Lemma news_count_passes_through_witness :
  is_segment "AAPL" = true
  /\ multidict_get "count" [("count", "3")] = Some "3"
  /\ Demo.int_validate "3" = Some 3
  /\ multidict_get "count" [] = None
  /\ multidict_get "count" [("count", "10")] = Some "10"
  /\ Demo.int_validate "10" = Some 10
  /\ (Demo.serve (GET "/api/news/AAPL" [("count", "3")]) 0%nat
      = (JSONResponse 200
           (PyList [PyDict [("symbol", PyStr "AAPL"); ("count", PyInt 3)]]),
         1%nat, [Awaited (Call_get_ticker_news "AAPL" 3) None])
      /\ Demo.serve (GET "/api/news/AAPL" []) 0%nat
         = Demo.serve (GET "/api/news/AAPL" [("count", "10")]) 0%nat).
Proof.
  assert (H1 : is_segment "AAPL" = true) by reflexivity.
  assert (H2 : multidict_get "count" [("count", "3")] = Some "3")
    by reflexivity.
  assert (H3 : Demo.int_validate "3" = Some 3) by reflexivity.
  assert (H4 : multidict_get "count" [] = None) by reflexivity.
  assert (H5 : multidict_get "count" [("count", "10")] = Some "10")
    by reflexivity.
  assert (H6 : Demo.int_validate "10" = Some 10) by reflexivity.
  repeat (split; [assumption|]).
  exact (news_count_passes_through Demo.World Demo.helper JsonDecoder.loads
           Demo.int_validate "AAPL" _ _ _ 0%nat _ _ _ H1 H2 H3 H4 H5 H6).
Defined.

(** C6, as stated, fails: a search without q, and news with a count that
    is no integer, are not answered with status 400. *)
Lemma client_input_error_is_not_400 :
  http_status (fst (fst (Demo.serve (GET "/api/search" []) 0%nat)))
  <> Some 400
  /\ http_status
       (fst (fst (Demo.serve (GET "/api/news/AAPL" [("count", "ten")]) 0%nat)))
     <> Some 400.
Proof.
  split; intros H; vm_compute in H; discriminate H.
Qed.

(** C6, as amended, on a search without q and with a count that is no
    integer. *)
Lemma client_input_error_is_422_witness :
  client_input_error Demo.int_validate (GET "/api/search" [("count", "ten")])
  = true
  /\ exists locs,
      Demo.serve (GET "/api/search" [("count", "ten")]) 0%nat
      = (RequestValidationError locs, 0%nat, [])
      /\ locs <> []
      /\ http_status (RequestValidationError locs) = Some 422.
Proof.
  assert (H1 : client_input_error Demo.int_validate
                 (GET "/api/search" [("count", "ten")]) = true)
    by reflexivity.
  split; [exact H1|].
  exact (client_input_error_is_422 Demo.World Demo.helper JsonDecoder.loads
           Demo.int_validate _ 0%nat H1).
Defined.


(** * Every request *)

Section GatewayInvariants.

Variable World : Type.
Variable helper : helper_package World.
Variable json_loads : string -> exn + pyobject.
Variable int_validate : string -> option Z.

Local Abbreviation app := (app World helper json_loads int_validate).
Local Abbreviation serve := (serve World helper json_loads int_validate).
Local Abbreviation respond := (respond World).
Local Abbreviation run_endpoint := (run_endpoint World helper json_loads).
Local Abbreviation query_int := (query_int int_validate).

Lemma query_int_valid q n :
  query_int "count" 10 q = Valid n -> count_from int_validate q n.
Proof.
  unfold server_http.query_int, count_from.
  destruct (multidict_get "count" q) as [txt|].
  - destruct (int_validate txt); [intros [= <-]; reflexivity|discriminate].
  - intros [= <-]. reflexivity.
Qed.

Lemma query_int_errors q locs :
  query_int "count" 10 q = Errors locs ->
  malformed_count int_validate q = true /\ locs = [["query"; "count"]].
Proof.
  unfold server_http.query_int, malformed_count.
  destruct (multidict_get "count" q) as [txt|]; [|discriminate].
  destruct (int_validate txt); [discriminate|].
  intros [= <-]. auto.
Qed.

Lemma query_str_required_errors name q locs :
  query_str_required name q = Errors locs ->
  multidict_get name q = None /\ locs = [["query"; name]].
Proof.
  unfold query_str_required.
  destruct (multidict_get name q); [discriminate|].
  intros [= <-]. auto.
Qed.

(** Whatever the request: no route takes it; or a route of the framework
    takes it and serves its page; or the route of /api/search or of
    /api/news/{symbol} takes it and refuses its q or its count; or an
    endpoint function is run on arguments that come from the request. *)
Lemma serve_resolved req (w : World) :
  (serve req w = (Unrouted, w, [])
   \/ exists page,
       serve req w = (FrameworkResponse 200 page, w, [])
       /\ taken_by_the_framework req)
  \/ (exists locs,
        serve req w = (RequestValidationError locs, w, [])
        /\ locs <> []
        /\ method req = "GET"
        /\ ((match_path (Static "/api/search") (path req) <> None
             /\ (lacks_q (query_params req) = true
                 \/ malformed_count int_validate (query_params req) = true))
            \/ (match_path (Param "/api/news/" "symbol") (path req) <> None
                /\ malformed_count int_validate (query_params req) = true)))
  \/ (exists c,
        method req = "GET"
        /\ match_path (template_of c) (path req) <> None
        /\ arguments_from int_validate req c
        /\ serve req w = respond (run_endpoint c) w).
Proof.
  unfold server_http.serve.
  destruct (find_route World app req) as [[r pp]|] eqn:Hf; [|now left; left].
  apply find_route_sound in Hf as (Hin & Hm & Hmeth).
  simpl in Hin.
  destruct Hin as [<-|[<-|[<-|[<-|Hin]]]];
    try (left; right; eexists; split; [reflexivity|];
         cbn [route_path route_methods] in Hm, Hmeth;
         match type of Hm with
         | match_path ?t _ = _ => exists ["GET"; "HEAD"], t
         end;
         split; [simpl; tauto|split; [exact Hmeth|rewrite Hm; discriminate]]).
  right.
  destruct Hin as [<-|[<-|[<-|[<-|[<-|[]]]]]];
    cbn [route_path route_methods] in Hm, Hmeth |- *;
    destruct Hmeth as [Hmeth|[]]; symmetry in Hmeth.
  - right. exists call_health_check. cbn [template_of run_endpoint].
    rewrite Hm. repeat split; [assumption|discriminate].
  - pose proof Hm as Hm'.
    apply match_path_param_inv in Hm as (v & Hp & Hv & ->).
    right. exists (call_get_info v). cbn [template_of run_endpoint].
    rewrite Hm'. repeat split; [assumption|discriminate|assumption..].
  - pose proof Hm as Hm'.
    apply match_path_param_inv in Hm as (v & Hp & Hv & ->).
    destruct (query_int "count" 10 (query_params req)) as [n|locs] eqn:Hq.
    + right. exists (call_get_news v n). cbn [template_of run_endpoint].
      rewrite Hm'. apply query_int_valid in Hq.
      repeat split; [assumption|discriminate|assumption..].
    + left. exists locs. apply query_int_errors in Hq as [Hq ->].
      rewrite Hm'.
      repeat split; [discriminate|assumption|].
      right. split; [discriminate|assumption].
  - assert (Hs : match_path (Static "/api/search") (path req) <> None)
      by (rewrite Hm; discriminate).
    destruct (query_str_required "q" (query_params req)) as [q|l1] eqn:Hq,
      (query_int "count" 10 (query_params req)) as [n|l2] eqn:Hn;
      cbn [solved_ap].
    + right. exists (call_search q n). cbn [template_of run_endpoint].
      apply query_int_valid in Hn.
      unfold query_str_required in Hq.
      destruct (multidict_get "q" (query_params req)) as [t|] eqn:Ht;
        [|discriminate].
      injection Hq as ->.
      repeat split; [assumption..|].
      cbn [arguments_from]. auto.
    + left. exists l2. apply query_int_errors in Hn as [Hn ->].
      repeat split; [discriminate|assumption|]. left. auto.
    + left. exists l1. apply query_str_required_errors in Hq as [Hq ->].
      repeat split; [discriminate|assumption|]. left. split; [assumption|].
      left. unfold lacks_q. now rewrite Hq.
    + left. exists (l1 ++ l2)%list.
      apply query_int_errors in Hn as [Hn ->].
      apply query_str_required_errors in Hq as [Hq ->].
      repeat split; [discriminate|assumption|]. left. auto.
  - pose proof Hm as Hm'.
    apply match_path_param_inv in Hm as (v & Hp & Hv & ->).
    right.
    exists (call_price_history v
              (or_default "1y" (multidict_get "period" (query_params req)))
              (or_default "1d"
                 (multidict_get "interval" (query_params req)))).
    cbn [template_of run_endpoint arguments_from]. rewrite Hm'.
    repeat split; [assumption|discriminate|assumption..|].
    unfold query_str.
    destruct (multidict_get "period" (query_params req)),
      (multidict_get "interval" (query_params req)); reflexivity.
Qed.

(** What the run of an endpoint function is answered with, and what it
    leaves: the health check answers at once; a helper call that returns
    is a 200 and nothing is logged; a JSON 500 carries the description of
    the exception, which the one record logged ends with, and the
    exception is that of the helper call, or of the parse of the ticker
    info; a ticker info that parses and does not render is a plain-text
    500, and nothing is logged. *)
Lemma respond_shape (c : endpoint_call) (w : World) :
  (c = call_health_check
   /\ respond (run_endpoint c) w
      = (JSONResponse 200 (PyDict [("status", PyStr "ok")]), w, []))
  \/ (exists hc v w1,
        helper_call_of c = Some hc
        /\ respond (run_endpoint c) w
           = (JSONResponse 200 v, w1, [Awaited hc None]))
  \/ (exists hc raised e pre w1,
        helper_call_of c = Some hc
        /\ respond (run_endpoint c) w
           = (JSONResponse 500 (detail_body (str e)), w1,
              [Awaited hc raised; LoggerError (pre ++ ": " ++ str e)])
        /\ (raised = Some e
            \/ (raised = None /\ exists symbol, c = call_get_info symbol)))
  \/ (exists symbol w1,
        c = call_get_info symbol
        /\ respond (run_endpoint c) w
           = (PlainTextResponse 500 "Internal Server Error", w1,
              [Awaited (Call_get_ticker_info symbol) None])).
Proof.
  destruct c as [|s|s n|q n|s p i]; simpl.
  - left. split; reflexivity.
  - right. rewrite respond_get_info.
    helper_cases (helper_get_ticker_info World helper s w).
    + right; left. exists (Call_get_ticker_info s), (Some e), e,
        ("Error fetching info for " ++ s), w0. auto.
    + destruct (json_loads v) as [e|o]; [|destruct (render o) as [x|]].
      * right; left. exists (Call_get_ticker_info s), None, e,
          ("Error fetching info for " ++ s), w0.
        repeat split; eauto.
      * left. eauto.
      * right; right. eauto.
  - right. rewrite respond_get_news.
    helper_cases (helper_get_ticker_news World helper s n w).
    + right; left. exists (Call_get_ticker_news s n), (Some e), e,
        ("Error fetching news for " ++ s), w0. auto.
    + left. eauto.
  - right. rewrite respond_search.
    helper_cases (helper_search_yahoo_finance World helper q n w).
    + right; left. exists (Call_search_yahoo_finance q n), (Some e), e,
        ("Error searching for " ++ q), w0. auto.
    + left. eauto.
  - right. rewrite respond_price_history.
    helper_cases (helper_get_price_history World helper s p i w).
    + right; left. exists (Call_get_price_history s p i), (Some e), e,
        ("Error fetching price history for " ++ s), w0. auto.
    + left. eauto.
Qed.

(** Whatever the request, the answer and what is left, in one of five
    shapes. *)
Lemma serve_shape req (w : World) :
  (exists r,
      (r = Unrouted
       \/ (exists page, r = FrameworkResponse 200 page)
       \/ exists locs, r = RequestValidationError locs /\ locs <> [])
      /\ serve req w = (r, w, []))
  \/ serve req w
     = (JSONResponse 200 (PyDict [("status", PyStr "ok")]), w, [])
  \/ (exists hc v w1, serve req w = (JSONResponse 200 v, w1, [Awaited hc None]))
  \/ (exists hc raised e pre w1,
        serve req w
        = (JSONResponse 500 (detail_body (str e)), w1,
           [Awaited hc raised; LoggerError (pre ++ ": " ++ str e)]))
  \/ (exists symbol w1,
        serve req w
        = (PlainTextResponse 500 "Internal Server Error", w1,
           [Awaited (Call_get_ticker_info symbol) None])).
Proof.
  destruct (serve_resolved req w)
    as [[H|(page & H & _)]|[(locs & H & Hl & _)|(c & _ & _ & _ & H)]].
  - left. exists Unrouted. auto.
  - left. exists (FrameworkResponse 200 page).
    split; [right; left; exists page; reflexivity|exact H].
  - left. exists (RequestValidationError locs).
    split; [right; right; exists locs; auto|exact H].
  - right. rewrite H.
    destruct (respond_shape c w)
      as [[_ Hr]|[(hc & v & w1 & _ & Hr)
                 |[(hc & raised & e & pre & w1 & _ & Hr & _)
                  |(symbol & w1 & _ & Hr)]]].
    + left. exact Hr.
    + right; left. eauto.
    + right; right; left. eauto 6.
    + right; right; right. eauto.
Qed.

(** A helper call among the events of a request is the call of an
    endpoint function whose arguments come from the request. *)
Lemma awaited_call req (w : World) c raised :
  In (Awaited c raised) (events_of (serve req w)) ->
  exists ec, helper_call_of ec = Some c /\ arguments_from int_validate req ec.
Proof.
  unfold events_of.
  destruct (serve_resolved req w)
    as [[H|(page & H & _)]|[(locs & H & _)|(ec & _ & _ & Ha & H)]];
    rewrite H; simpl; try tauto.
  destruct (respond_shape ec w)
    as [[_ Hr]|[(hc & v & w1 & Hc & Hr)
               |[(hc & r0 & e & pre & w1 & Hc & Hr & _)
                |(symbol & w1 & -> & Hr)]]];
    rewrite Hr; simpl.
  - tauto.
  - intros [[= <- <-]|[]]. eauto.
  - intros [[= <- <-]|[[=]|[]]]. eauto.
  - intros [[= <- <-]|[]]. exists (call_get_info symbol). auto.
Qed.

Lemma find_route_query routes m p q q' :
  find_route World routes (mkRequest m p q)
  = find_route World routes (mkRequest m p q').
Proof.
  induction routes as [|r rest IH]; simpl; [reflexivity|].
  rewrite IH. reflexivity.
Qed.

(** ** What every request is answered with *)



(** X3.  A request awaits the helper at most once; and when it does not
    (no route, a validation error, the health check) it leaves no event
    and the world as it was. *)
Theorem at_most_one_helper_call req (w : World) :
  (List.length (calls_of (events_of (serve req w))) <= 1)%nat
  /\ (calls_of (events_of (serve req w)) = [] ->
      events_of (serve req w) = [] /\ world_of (serve req w) = w).
Proof.
  unfold world_of, events_of.
  destruct (serve_shape req w)
    as [(r & _ & H)
       |[H|[(hc & v & w1 & H)
           |[(hc & raised & e & pre & w1 & H)|(symbol & w1 & H)]]]];
    rewrite H; simpl; (split; [lia|]); auto; discriminate.
Qed.


(** X5.  The query of a request is read by name only, and only under the
    names q, count, period and interval: two requests of the same method
    and path whose queries give the same last value to each of the four
    are answered alike, and leave the same world and events. *)
Theorem query_read_by_name m p q q' (w : World) :
  multidict_get "q" q = multidict_get "q" q' ->
  multidict_get "count" q = multidict_get "count" q' ->
  multidict_get "period" q = multidict_get "period" q' ->
  multidict_get "interval" q = multidict_get "interval" q' ->
  serve (mkRequest m p q) w = serve (mkRequest m p q') w.
Proof.
  intros Hq Hc Hp Hi. unfold server_http.serve.
  rewrite (find_route_query app m p q q').
  destruct (find_route World app (mkRequest m p q')) as [[r pp]|] eqn:Hf;
    [|reflexivity].
  apply find_route_sound in Hf as (Hin & _ & _).
  cbn [query_params]. simpl in Hin.
  destruct Hin as [<-|[<-|[<-|[<-|[<-|[<-|[<-|[<-|[<-|[]]]]]]]]]];
    try reflexivity;
    unfold server_http.query_int, query_str_required, query_str;
    rewrite ?Hq, ?Hc, ?Hp, ?Hi; reflexivity.
Qed.

(** X6.  GET /api/ticker/{symbol} does not read its query: whatever two
    queries, the answers, the worlds and the events are the same. *)
Theorem ticker_ignores_query (symbol : string) q q' (w : World) :
  serve (GET ("/api/ticker/" ++ symbol) q) w
  = serve (GET ("/api/ticker/" ++ symbol) q') w.
Proof.
  destruct (is_segment symbol) eqn:Hs.
  - rewrite !serve_ticker by exact Hs. reflexivity.
  - unfold server_http.serve, GET. cbn. rewrite Hs. reflexivity.
Qed.

(** X8.  A validation error is only ever about q or count: a request is
    answered with one only if it is a GET on the path of /api/search
    whose q is missing or whose count is no integer, or a GET on a path
    of /api/news/{symbol} whose count is no integer; and then nothing was
    called or logged and the world is as it was. *)
Theorem validation_error_only_for_q_and_count req (w : World) locs :
  response_of (serve req w) = RequestValidationError locs ->
  method req = "GET"
  /\ ((match_path (Static "/api/search") (path req) <> None
       /\ (lacks_q (query_params req) = true
           \/ malformed_count int_validate (query_params req) = true))
      \/ (match_path (Param "/api/news/" "symbol") (path req) <> None
          /\ malformed_count int_validate (query_params req) = true))
  /\ events_of (serve req w) = []
  /\ world_of (serve req w) = w.
Proof.
  unfold response_of, events_of, world_of.
  destruct (serve_resolved req w)
    as [[H|(page & H & _)]|[(locs' & H & _ & Hm & Hc)|(c & _ & _ & _ & H)]];
    rewrite H; simpl.
  - discriminate.
  - discriminate.
  - intros _. auto.
  - destruct (respond_shape c w)
      as [[_ Hr]|[(hc & v & w1 & _ & Hr)
                 |[(hc & raised & e & pre & w1 & _ & Hr & _)
                  |(symbol & w1 & _ & Hr)]]];
      rewrite Hr; simpl; discriminate.
Qed.

(** X9.  A symbol that reaches the helper is never empty and has no
    slash, and it is the end of the path of the request as it is written,
    after the prefix of a route of the table. *)
Theorem symbols_come_from_the_path req (w : World) c raised symbol :
  In (Awaited c raised) (events_of (serve req w)) ->
  symbol_of c = Some symbol ->
  is_segment symbol = true
  /\ exists prefix,
      In (Param prefix "symbol") (map (route_path World) app)
      /\ path req = prefix ++ symbol.
Proof.
  intros Hin Hs.
  apply awaited_call in Hin as (ec & Hc & Ha).
  destruct ec as [|s|s n|t n|s p i]; simpl in Hc; try discriminate;
    injection Hc as <-; simpl in Hs; try discriminate;
    injection Hs as <-; simpl in Ha.
  - destruct Ha as (Hp & Hseg). split; [exact Hseg|].
    exists "/api/ticker/". split; [simpl; tauto|exact Hp].
  - destruct Ha as (Hp & Hseg & _). split; [exact Hseg|].
    exists "/api/news/". split; [simpl; tauto|exact Hp].
  - destruct Ha as (Hp & Hseg & _). split; [exact Hseg|].
    exists "/api/price-history/". split; [simpl; tauto|exact Hp].
Qed.

(** X10.  A count that reaches the helper is 10 when the query has no
    count, and else what the last count of the query validates to. *)
Theorem counts_come_from_the_query req (w : World) c raised n :
  In (Awaited c raised) (events_of (serve req w)) ->
  count_of c = Some n ->
  match multidict_get "count" (query_params req) with
  | None => n = 10
  | Some txt => int_validate txt = Some n
  end.
Proof.
  intros Hin Hn.
  apply awaited_call in Hin as (ec & Hc & Ha).
  destruct ec as [|s|s k|t k|s p i]; simpl in Hc; try discriminate;
    injection Hc as <-; simpl in Hn; try discriminate;
    injection Hn as <-; simpl in Ha.
  - destruct Ha as (_ & _ & Hk). exact Hk.
  - destruct Ha as (_ & Hk). exact Hk.
Qed.

(** X7.  No two routes of the table take the same path: a path that the
    template of one route matches is matched by the template of no other,
    so that the order in which the routes are registered does not
    matter. *)
Theorem routes_do_not_overlap t1 t2 p :
  In t1 (map (route_path World) app) ->
  In t2 (map (route_path World) app) ->
  match_path t1 p <> None -> match_path t2 p <> None ->
  t1 = t2.
Proof.
  intros H1 H2 M1 M2.
  destruct (match_path t1 p) as [pp1|] eqn:E1; [clear M1|tauto].
  destruct (match_path t2 p) as [pp2|] eqn:E2; [clear M2|tauto].
  simpl in H1, H2.
  destruct H1 as [<-|[<-|[<-|[<-|[<-|[<-|[<-|[<-|[<-|[]]]]]]]]]];
    destruct H2 as [<-|[<-|[<-|[<-|[<-|[<-|[<-|[<-|[<-|[]]]]]]]]]];
    try reflexivity; exfalso;
    repeat match goal with
      | H : match_path (Static _) _ = Some _ |- _ =>
          apply match_path_static_inv in H as [[H|H] _]
      | H : match_path (Param _ _) _ = Some _ |- _ =>
          apply match_path_param_inv in H as (? & H & _ & _)
      end;
    subst p; discriminate.
Qed.



(** ** The routes *)

Lemma framework_served req (w : World) :
  taken_by_the_framework req ->
  exists page, serve req w = (FrameworkResponse 200 page, w, []).
Proof.
  destruct req as [m p q].
  intros (ms & t & Hin & Hm & Hp). cbn [method path] in Hm, Hp.
  destruct (match_path t p) as [pp|] eqn:E; [clear Hp|tauto].
  simpl in Hin.
  destruct Hin as [[= <- <-]|[[= <- <-]|[[= <- <-]|[[= <- <-]|[]]]]];
    apply match_path_static_inv in E as [[-> | ->] _];
    destruct Hm as [<-|[<-|[]]]; eexists; reflexivity.
Qed.

Lemma respond_is_not_a_page (m : M World pyobject) (w : World) page :
  fst (fst (respond m w)) <> FrameworkResponse 200 page.
Proof.
  unfold server_http.respond.
  destruct (m w) as [[[[cls msg|code detail]|o] w1] evs];
    try discriminate.
  destruct (render o); discriminate.
Qed.

Lemma routed_is_answered req (w : World) :
  find_route World app req <> None ->
  response_of (serve req w) <> Unrouted.
Proof.
  unfold response_of, server_http.serve.
  destruct (find_route World app req) as [[[ms t endpoint|ms t page] pp]|];
    [| |tauto]; intros _.
  - destruct (endpoint pp (query_params req)) as [m|locs];
      [apply respond_not_unrouted|discriminate].
  - discriminate.
Qed.

(** C7, as amended.  The routes registered are the four that FastAPI adds
    by default for its own pages (/openapi.json, /docs,
    /docs/oauth2-redirect and /redoc, for GET and HEAD) and the five GET
    routes /health, /api/ticker/{symbol}, /api/news/{symbol}, /api/search
    and /api/price-history/{symbol}, and no other; a request is routed
    exactly when one of the nine takes it; the four of the framework
    serve their page, call no helper and log nothing; and whatever the
    request, no helper call it leaves is a call of [get_top_entities]. *)
Theorem routes_of_the_application :
  map (fun r => (route_methods World r, route_path World r)) app
  = (framework_routes
       ++ map (fun mt => ([fst mt], snd mt)) five_routes)%list
  /\ forall req (w : World),
      (response_of (serve req w) <> Unrouted <->
       taken_by_the_five req \/ taken_by_the_framework req)
      /\ ((exists page, serve req w = (FrameworkResponse 200 page, w, []))
          <-> taken_by_the_framework req)
      /\ forall c raised,
          In (Awaited c raised) (events_of (serve req w)) ->
          is_get_top_entities c = false.
Proof.
  split; [reflexivity|].
  intros req w. split; [split|split; [split|]].
  - intros Hr. unfold response_of in Hr.
    destruct (serve_resolved req w)
      as [[H|(page & H & Hf)]
         |[(locs & H & _ & Hm & Hc)|(ec & Hm & Hp & _ & H)]].
    + rewrite H in Hr. simpl in Hr. tauto.
    + right. exact Hf.
    + left. split; [exact Hm|].
      destruct Hc as [[Hp _]|[Hp _]]; eexists; (split; [|exact Hp]);
        simpl; tauto.
    + left. split; [exact Hm|]. exists (template_of ec).
      split; [|exact Hp]. destruct ec; simpl; tauto.
  - intros [(Hm & t & Hin & Hp)|Hf].
    + apply routed_is_answered.
      assert (Hin' : In (["GET"], t)
                (map (fun r => (route_methods World r, route_path World r))
                     app)).
      { simpl in Hin |- *.
        destruct Hin as [[= <-]|[[= <-]|[[= <-]|[[= <-]|[[= <-]|[]]]]]];
          tauto. }
      apply in_map_iff in Hin' as (r0 & [= Hmeth Hpath] & Hin').
      apply find_route_complete with (r := r0); [exact Hin'| |].
      * rewrite Hpath. exact Hp.
      * rewrite Hmeth, Hm. simpl. tauto.
    + destruct (framework_served req w Hf) as [page H].
      unfold response_of. rewrite H. discriminate.
  - intros [page Hpage].
    destruct (serve_resolved req w)
      as [[H|(page' & H & Hf)]
         |[(locs & H & _)|(ec & _ & _ & _ & H)]].
    + rewrite H in Hpage. discriminate.
    + exact Hf.
    + rewrite H in Hpage. discriminate.
    + exfalso. apply (respond_is_not_a_page (run_endpoint ec) w page).
      rewrite <- H, Hpage. reflexivity.
  - apply framework_served.
  - intros c raised Hin.
    apply awaited_call in Hin as (ec & Hc & _).
    not_top_entities ec Hc.
Qed.

End GatewayInvariants.

(** C7, as stated, fails: /docs is none of the five routes, it is in the
    route table of the application all the same, and a GET on it is served
    with a page of the framework. *)
Lemma docs_route_is_registered :
  ~ In ("GET", Static "/docs") five_routes
  /\ ~ taken_by_the_five (GET "/docs" [])
  /\ In (["GET"; "HEAD"], Static "/docs")
        (map (fun r => (route_methods Demo.World r, route_path Demo.World r))
             (app Demo.World Demo.helper JsonDecoder.loads
                  Demo.int_validate))
  /\ Demo.serve (GET "/docs" []) 0%nat
     = (FrameworkResponse 200 SwaggerUI, 0%nat, [])
  /\ response_of (Demo.serve (GET "/docs" []) 0%nat) <> Unrouted.
Proof.
  split; [|split; [|split; [|split]]].
  - simpl. intros [H|[H|[H|[H|[H|[]]]]]]; discriminate H.
  - intros (_ & t & Hin & Hp). simpl in Hin.
    destruct Hin as [[= <-]|[[= <-]|[[= <-]|[[= <-]|[[= <-]|[]]]]]];
      apply Hp; reflexivity.
  - simpl. tauto.
  - reflexivity.
  - discriminate.
Qed.

(** C7, as amended, on a request of the ticker route: one of the five
    takes it, and it is routed. *)
Lemma routes_of_the_application_witness :
  taken_by_the_five (GET "/api/ticker/AAPL" [])
  /\ response_of (Demo.serve (GET "/api/ticker/AAPL" []) 0%nat) <> Unrouted.
Proof.
  assert (H1 : taken_by_the_five (GET "/api/ticker/AAPL" [])).
  { split; [reflexivity|]. exists (Param "/api/ticker/" "symbol").
    split; [simpl; tauto|vm_compute; discriminate]. }
  split; [exact H1|].
  exact (proj2
           (proj1
              (proj2 (routes_of_the_application Demo.World Demo.helper
                        JsonDecoder.loads Demo.int_validate)
                     (GET "/api/ticker/AAPL" []) 0%nat))
           (or_introl H1)).
Defined.


(** * Every request, at work *)

(** X3 on a request that no route takes. *)
Lemma at_most_one_helper_call_witness :
  calls_of (events_of (Demo.serve (mkRequest "POST" "/api/search" []) 5%nat))
  = []
  /\ events_of (Demo.serve (mkRequest "POST" "/api/search" []) 5%nat) = []
  /\ world_of (Demo.serve (mkRequest "POST" "/api/search" []) 5%nat) = 5%nat.
Proof.
  assert (H : calls_of (events_of
                (Demo.serve (mkRequest "POST" "/api/search" []) 5%nat)) = [])
    by reflexivity.
  split; [exact H|].
  exact (proj2 (at_most_one_helper_call Demo.World Demo.helper
                  JsonDecoder.loads Demo.int_validate
                  (mkRequest "POST" "/api/search" []) 5%nat) H).
Defined.


(** X5 on a query with a parameter of another name and a count given
    twice. *)
Lemma query_read_by_name_witness :
  multidict_get "q" [("count", "7"); ("_", "1"); ("count", "3")]
  = multidict_get "q" [("count", "3")]
  /\ multidict_get "count" [("count", "7"); ("_", "1"); ("count", "3")]
     = multidict_get "count" [("count", "3")]
  /\ multidict_get "period" [("count", "7"); ("_", "1"); ("count", "3")]
     = multidict_get "period" [("count", "3")]
  /\ multidict_get "interval" [("count", "7"); ("_", "1"); ("count", "3")]
     = multidict_get "interval" [("count", "3")]
  /\ Demo.serve
       (mkRequest "GET" "/api/news/AAPL"
          [("count", "7"); ("_", "1"); ("count", "3")]) 0%nat
     = Demo.serve (mkRequest "GET" "/api/news/AAPL" [("count", "3")]) 0%nat.
Proof.
  repeat (split; [reflexivity|]).
  exact (query_read_by_name Demo.World Demo.helper JsonDecoder.loads
           Demo.int_validate "GET" "/api/news/AAPL"
           [("count", "7"); ("_", "1"); ("count", "3")] [("count", "3")]
           0%nat eq_refl eq_refl eq_refl eq_refl).
Defined.

(** X7 on a path of the ticker route. *)
Lemma routes_do_not_overlap_witness :
  In (Param "/api/ticker/" "symbol")
     (map (route_path Demo.World)
          (app Demo.World Demo.helper JsonDecoder.loads Demo.int_validate))
  /\ match_path (Param "/api/ticker/" "symbol") "/api/ticker/search" <> None
  /\ Param "/api/ticker/" "symbol" = Param "/api/ticker/" "symbol".
Proof.
  assert (H1 : In (Param "/api/ticker/" "symbol")
     (map (route_path Demo.World)
          (app Demo.World Demo.helper JsonDecoder.loads Demo.int_validate)))
    by (simpl; tauto).
  assert (H2 : match_path (Param "/api/ticker/" "symbol") "/api/ticker/search"
               <> None) by (vm_compute; discriminate).
  repeat (split; [assumption|]).
  exact (routes_do_not_overlap Demo.World Demo.helper JsonDecoder.loads
           Demo.int_validate _ _ "/api/ticker/search" H1 H1 H2 H2).
Defined.

(** X8 on news with a count that is no integer. *)
Lemma validation_error_only_for_q_and_count_witness :
  response_of (Demo.serve (GET "/api/news/AAPL" [("count", "ten")]) 0%nat)
  = RequestValidationError [["query"; "count"]]
  /\ method (GET "/api/news/AAPL" [("count", "ten")]) = "GET"
  /\ ((match_path (Static "/api/search")
         (path (GET "/api/news/AAPL" [("count", "ten")])) <> None
       /\ (lacks_q (query_params (GET "/api/news/AAPL" [("count", "ten")]))
           = true
           \/ malformed_count Demo.int_validate
                (query_params (GET "/api/news/AAPL" [("count", "ten")]))
              = true))
      \/ (match_path (Param "/api/news/" "symbol")
            (path (GET "/api/news/AAPL" [("count", "ten")])) <> None
          /\ malformed_count Demo.int_validate
               (query_params (GET "/api/news/AAPL" [("count", "ten")]))
             = true))
  /\ events_of (Demo.serve (GET "/api/news/AAPL" [("count", "ten")]) 0%nat)
     = []
  /\ world_of (Demo.serve (GET "/api/news/AAPL" [("count", "ten")]) 0%nat)
     = 0%nat.
Proof.
  assert (H : response_of
                (Demo.serve (GET "/api/news/AAPL" [("count", "ten")]) 0%nat)
              = RequestValidationError [["query"; "count"]])
    by reflexivity.
  split; [exact H|].
  exact (validation_error_only_for_q_and_count Demo.World Demo.helper
           JsonDecoder.loads Demo.int_validate _ 0%nat _ H).
Defined.

(** X9 on a symbol in lower case: it reaches the helper as it is. *)
Lemma symbols_come_from_the_path_witness :
  In (Awaited (Call_get_ticker_news "aapl" 10)
              (Some (Demo.not_found_exn "aapl")))
     (events_of (Demo.serve (GET "/api/news/aapl" []) 0%nat))
  /\ symbol_of (Call_get_ticker_news "aapl" 10) = Some "aapl"
  /\ is_segment "aapl" = true
  /\ exists prefix,
      In (Param prefix "symbol")
         (map (route_path Demo.World)
            (app Demo.World Demo.helper JsonDecoder.loads Demo.int_validate))
      /\ path (GET "/api/news/aapl" []) = prefix ++ "aapl".
Proof.
  assert (H1 : In (Awaited (Call_get_ticker_news "aapl" 10)
                           (Some (Demo.not_found_exn "aapl")))
                 (events_of (Demo.serve (GET "/api/news/aapl" []) 0%nat)))
    by (left; reflexivity).
  assert (H2 : symbol_of (Call_get_ticker_news "aapl" 10) = Some "aapl")
    by reflexivity.
  repeat (split; [assumption|]).
  exact (symbols_come_from_the_path Demo.World Demo.helper JsonDecoder.loads
           Demo.int_validate _ 0%nat _ _ _ H1 H2).
Defined.

(** X10 on a count given twice: the last one reaches the helper. *)
Lemma counts_come_from_the_query_witness :
  In (Awaited (Call_search_yahoo_finance "apple" 5) None)
     (events_of
        (Demo.serve
           (GET "/api/search" [("count", "3"); ("q", "apple"); ("count", "5")])
           0%nat))
  /\ count_of (Call_search_yahoo_finance "apple" 5) = Some 5
  /\ Demo.int_validate "5" = Some 5.
Proof.
  assert (H1 : In (Awaited (Call_search_yahoo_finance "apple" 5) None)
     (events_of
        (Demo.serve
           (GET "/api/search" [("count", "3"); ("q", "apple"); ("count", "5")])
           0%nat))) by (left; reflexivity).
  assert (H2 : count_of (Call_search_yahoo_finance "apple" 5) = Some 5)
    by reflexivity.
  repeat (split; [assumption|]).
  exact (counts_come_from_the_query Demo.World Demo.helper JsonDecoder.loads
           Demo.int_validate
           (GET "/api/search" [("count", "3"); ("q", "apple"); ("count", "5")])
           0%nat _ _ _ H1 H2).
Defined.


